(** * Source integrations of the papers-feed extension

    A shallow embedding of [extension/source-integration]: the per-publisher
    integrations (URL patterns, [extractPaperId], the specialised metadata
    extractors) and the registry, with the properties the specification
    states about them. *)

From Stdlib Require Import List Ascii String Bool Arith Lia.
Import ListNotations.

Set Implicit Arguments.

(** ** JavaScript strings

    A string is its sequence of code units; the model keeps to the code
    units below 256, which hold the URLs as the browser serialises them.
    The white space of [\s] and [trim] is all the JavaScript white space in
    that range: the code units 9 to 13, the space 32 and the no-break space
    160. *)

Definition jsstring := list ascii.

Definition str (s : string) : jsstring := list_ascii_of_string s.

Definition code (c : ascii) : nat := nat_of_ascii c.

Definition between (lo hi : nat) (c : ascii) : bool :=
  (lo <=? code c) && (code c <=? hi).

Definition oneOf (l : jsstring) (c : ascii) : bool :=
  existsb (Ascii.eqb c) l.

(** [\d], [\s] and the bracket classes of the URL patterns. *)
Definition digit : ascii -> bool := between 48 57.
Definition space (c : ascii) : bool :=
  between 9 13 c || (code c =? 32) || (code c =? 160).
Definition upper : ascii -> bool := between 65 90.
Definition hexlow (c : ascii) : bool := between 97 102 c || digit c.
Definition upperOrDigit (c : ascii) : bool := upper c || digit c.
Definition noneOf (l : jsstring) (c : ascii) : bool := negb (oneOf l c).
Definition noneOfNorSpace (l : jsstring) (c : ascii) : bool :=
  negb (oneOf l c || space c).

(** [jsstring] equality, the [===] of two strings. *)
Fixpoint streq (a b : jsstring) : bool :=
  match a, b with
  | [], [] => true
  | x :: a', y :: b' => Ascii.eqb x y && streq a' b'
  | _, _ => false
  end.

(** A string is truthy when it is not empty. *)
Definition truthy (s : jsstring) : bool :=
  match s with [] => false | _ :: _ => true end.

(** [a || b] on strings. *)
Definition orElse (a b : jsstring) : jsstring := if truthy a then a else b.

Declare Scope js_scope.
Delimit Scope js_scope with js.
Infix "||" := orElse (at level 50, left associativity) : js_scope.

(** [Array.prototype.join]. *)
Fixpoint join (sep : jsstring) (l : list jsstring) : jsstring :=
  match l with
  | [] => []
  | [x] => x
  | x :: rest => x ++ sep ++ join sep rest
  end.

(** ** Regular expressions

    The fragment the URL patterns are written in: literal text, a bracket
    class, a class under a greedy [*], [+] or [?], concatenation and numbered
    capturing groups. *)

Inductive regex : Type :=
| Lit (l : jsstring)
| Cls (p : ascii -> bool)
| Star (p : ascii -> bool)
| Plus (p : ascii -> bool)
| Opt (p : ascii -> bool)
| Cat (r1 r2 : regex)
| Group (i : nat) (r : regex).

Declare Scope regex_scope.
Delimit Scope regex_scope with re.
Infix ";;" := Cat (at level 60, right associativity) : regex_scope.

Definition captures := list (nat * jsstring).

Fixpoint lookup (i : nat) (caps : captures) : option jsstring :=
  match caps with
  | [] => None
  | (j, v) :: rest => if i =? j then Some v else lookup i rest
  end.

(** The text between the start [s] of a match and what is left of it. *)
Definition consumed (s rest : jsstring) : jsstring :=
  firstn (List.length s - List.length rest) s.

(** Strip a literal from the front of the input. *)
Fixpoint literal (l s : jsstring) : option jsstring :=
  match l, s with
  | [], _ => Some s
  | a :: l', c :: s' => if Ascii.eqb a c then literal l' s' else None
  | _ :: _, [] => None
  end.

(** Greedy repetition of a class: the longest run first, then shorter ones
    when the continuation fails. *)
Fixpoint star (A : Type) (p : ascii -> bool) (k : jsstring -> option A)
    (s : jsstring) : option A :=
  match s with
  | c :: s' =>
      if p c then
        match star p k s' with
        | Some a => Some a
        | None => k s
        end
      else k s
  | [] => k s
  end.

(** The backtracking matcher, in continuation-passing style. *)
Fixpoint run (A : Type) (r : regex) (s : jsstring) (caps : captures)
    (k : jsstring -> captures -> option A) : option A :=
  match r with
  | Lit l =>
      match literal l s with
      | Some s' => k s' caps
      | None => None
      end
  | Cls p =>
      match s with
      | c :: s' => if p c then k s' caps else None
      | [] => None
      end
  | Star p => star p (fun s' => k s' caps) s
  | Plus p =>
      match s with
      | c :: s' => if p c then star p (fun s' => k s' caps) s' else None
      | [] => None
      end
  | Opt p =>
      match s with
      | c :: s' =>
          if p c then
            match k s' caps with
            | Some a => Some a
            | None => k s caps
            end
          else k s caps
      | [] => k s caps
      end
  | Cat r1 r2 => run r1 s caps (fun s' caps' => run r2 s' caps' k)
  | Group i r1 =>
      run r1 s caps (fun s' caps' => k s' ((i, consumed s s') :: caps'))
  end.

(** The capturing groups of a pattern, by number, and how many there are. *)
Fixpoint groupsOf (r : regex) : list nat :=
  match r with
  | Cat r1 r2 => groupsOf r1 ++ groupsOf r2
  | Group i r1 => i :: groupsOf r1
  | _ => []
  end.

Definition ngroups (r : regex) : nat := list_max (groupsOf r).

(** A match at the very start of [s]: what is left and what was captured. *)
Definition matchAt (r : regex) (s : jsstring) : option (jsstring * captures) :=
  run r s [] (fun s' caps => Some (s', caps)).

(** The array [String.prototype.match] returns for a pattern without the
    [g] flag: the matched text, then one entry per group ([None] is
    [undefined]). *)
Definition matchArray := list (option jsstring).

Definition mkArray (r : regex) (s rest : jsstring) (caps : captures)
  : matchArray :=
  Some (consumed s rest) :: map (fun i => lookup i caps) (seq 1 (ngroups r)).

(** [url.match(pattern)]: the leftmost start position at which the pattern
    matches, the end of the string included. *)
Fixpoint jsMatch (s : jsstring) (r : regex) : option matchArray :=
  match matchAt r s with
  | Some (rest, caps) => Some (mkArray r s rest caps)
  | None =>
      match s with
      | [] => None
      | _ :: s' => jsMatch s' r
      end
  end.

(** [match[i]]. *)
Definition at_ (m : matchArray) (i : nat) : option jsstring :=
  nth i m None.

(** A value inside a template literal. *)
Definition tpl (v : option jsstring) : jsstring :=
  match v with
  | Some s => s
  | None => str "undefined"
  end.

(** [String.prototype.trim]. *)
Fixpoint trimStart (s : jsstring) : jsstring :=
  match s with
  | c :: s' => if space c then trimStart s' else s
  | [] => []
  end.

Definition trimEnd (s : jsstring) : jsstring := rev (trimStart (rev s)).

Definition trim (s : jsstring) : jsstring := trimEnd (trimStart s).

(** [s.split(/[..]/)] for a one-character class: the pieces between the
    separators, empty ones included. *)
Fixpoint split (sep : ascii -> bool) (s : jsstring) : list jsstring :=
  match s with
  | [] => [[]]
  | c :: s' =>
      if sep c then [] :: split sep s'
      else
        match split sep s' with
        | piece :: pieces => (c :: piece) :: pieces
        | [] => [[c]]
        end
  end.

(** ** The page document

    The DOM is the host's: a document answers selector queries with the
    elements that match, in document order; an element has attributes and a
    text content ([None] is [null]). *)

Record Element : Type := {
  attributes : list (jsstring * jsstring);
  textContent : option jsstring
}.

Fixpoint getAttribute (l : list (jsstring * jsstring)) (name : jsstring)
  : option jsstring :=
  match l with
  | [] => None
  | (n, v) :: rest => if streq n name then Some v else getAttribute rest name
  end.

Record Document : Type := {
  querySelectorAll : jsstring -> list Element
}.

Definition querySelector (document : Document) (selector : jsstring)
  : option Element :=
  hd_error (querySelectorAll document selector).

Definition dquote : ascii := ascii_of_nat 34.

(** The no-break space, U+00A0. *)
Definition nbsp : ascii := ascii_of_nat 160.

(** The selectors [meta[name=...]] and [meta[property=...]], the value in
    double quotes. *)
Definition metaName (n : string) : jsstring :=
  str "meta[name=" ++ dquote :: str n ++ dquote :: str "]".

Definition metaProperty (n : string) : jsstring :=
  str "meta[property=" ++ dquote :: str n ++ dquote :: str "]".

(** Modelled from the spec: the helper [getMetaContent] of the base class
    [MetadataExtractor] ([../metadata-extractor]): the [content] attribute of
    the first element the selector finds, the empty string when there is no
    such element or no such attribute. *)
Definition getMetaContent (document : Document) (selector : jsstring)
  : jsstring :=
  match querySelector document selector with
  | Some el =>
      match getAttribute (attributes el) (str "content") with
      | Some c => c
      | None => []
      end
  | None => []
  end.

(** The loop over [meta] elements that collects their non-empty [content]
    attributes. *)
Definition contents (els : list Element) : list jsstring :=
  flat_map
    (fun el =>
       match getAttribute (attributes el) (str "content") with
       | Some c => if truthy c then [c] else []
       | None => []
       end)
    els.

(** [Array.from(els).map(el => el.textContent?.trim()).filter(Boolean)]. *)
Definition texts (els : list Element) : list jsstring :=
  flat_map
    (fun el =>
       match textContent el with
       | Some t => if truthy (trim t) then [trim t] else []
       | None => []
       end)
    els.

(** [el.textContent?.trim() || '']. *)
Definition textOf (el : Element) : jsstring :=
  match textContent el with
  | Some t => trim t
  | None => []
  end.

Definition keywordSeparator : ascii -> bool := oneOf (str ";,").

(** [keywords.split(/[;,]/).map(tag => tag.trim()).filter(Boolean)]. *)
Definition splitKeywords (keywords : jsstring) : list jsstring :=
  filter truthy (map trim (split keywordSeparator keywords)).

(** ** Metadata extractors

    An extractor is bound to one document; its accessors take no argument,
    so the object is the record of what they return. *)

Record MetadataExtractor : Type := {
  extractTitle : jsstring;
  extractAuthors : jsstring;
  extractDescription : jsstring;
  extractPublishedDate : jsstring;
  extractDoi : jsstring;
  extractJournalName : jsstring;
  extractTags : list jsstring
}.

(** Modelled from the spec: the base class [MetadataExtractor]
    ([../metadata-extractor]), with the default strategy of section 4.1 for
    each field. *)
Definition BaseMetadataExtractor (document : Document) : MetadataExtractor :=
  {| extractTitle := getMetaContent document (metaProperty "og:title");
     extractAuthors :=
       join (str ", ") (contents (querySelectorAll document (metaName "author")));
     extractDescription :=
       (getMetaContent document (metaName "description")
        || getMetaContent document (metaProperty "og:description"))%js;
     extractPublishedDate := getMetaContent document (metaName "date");
     extractDoi := getMetaContent document (metaName "doi");
     extractJournalName := [];
     extractTags := splitKeywords (getMetaContent document (metaName "keywords"))
  |}.

(** The [citation_author] loop every extractor starts [extractAuthors] with. *)
Definition citationAuthors (document : Document) : list jsstring :=
  contents (querySelectorAll document (metaName "citation_author")).

(** The keywords every extractor reads first in [extractTags]. *)
Definition keywordsOf (document : Document) : jsstring :=
  (getMetaContent document (metaName "citation_keywords")
   || getMetaContent document (metaName "keywords"))%js.

(** ** Source integrations *)

(** [for (const pattern of urlPatterns) { const match = url.match(pattern);
    if (match) return ...; } return null]. *)
Fixpoint forOfPatterns (patterns : list regex) (url : jsstring)
    (ret : matchArray -> option jsstring) : option jsstring :=
  match patterns with
  | [] => None
  | pattern :: rest =>
      match jsMatch url pattern with
      | Some m => ret m
      | None => forOfPatterns rest url ret
      end
  end.

Local Open Scope regex_scope.
Local Open Scope js_scope.

Module MedRxiv.

Definition MedRxivMetadataExtractor (super : MetadataExtractor)
    (document : Document) : MetadataExtractor :=
  {| extractTitle :=
       let metaTitle :=
         getMetaContent document (metaName "citation_title")
         || getMetaContent document (metaProperty "og:title")
         || getMetaContent document (metaName "DC.Title") in
       metaTitle || extractTitle super;
     extractAuthors :=
       let citationAuthors := citationAuthors document in
       if 0 <? List.length citationAuthors
       then join (str ", ") citationAuthors
       else extractAuthors super;
     extractDescription :=
       let metaDescription :=
         getMetaContent document (metaName "citation_abstract")
         || getMetaContent document (metaName "description")
         || getMetaContent document (metaProperty "og:description") in
       metaDescription || extractDescription super;
     extractPublishedDate :=
       getMetaContent document (metaName "citation_publication_date")
       || getMetaContent document (metaName "citation_online_date")
       || getMetaContent document (metaName "DC.Date")
       || extractPublishedDate super;
     extractDoi :=
       getMetaContent document (metaName "citation_doi")
       || getMetaContent document (metaName "DC.Identifier")
       || extractDoi super;
     extractJournalName :=
       getMetaContent document (metaName "citation_journal_title")
       || str "medRxiv"
       || extractJournalName super;
     extractTags :=
       let keywords := keywordsOf document in
       if truthy keywords then splitKeywords keywords
       else extractTags super
  |}.

Definition id : jsstring := str "medrxiv".
Definition name : jsstring := str "medRxiv".

Definition urlPatterns : list regex :=
  [ Lit (str "medrxiv.org/content/")
    ;; Group 1 (Lit (str "10.") ;; Plus digit ;; Lit (str "/")
                ;; Plus (noneOfNorSpace (str "v?")))
    ;; Opt (oneOf (str "v")) ;; Star digit;
    Lit (str "medrxiv.org/content/early/")
    ;; Plus digit ;; Lit (str "/") ;; Plus digit ;; Lit (str "/")
    ;; Plus digit ;; Lit (str "/") ;; Group 1 (Plus digit) ].

Definition extractPaperId (url : jsstring) : option jsstring :=
  forOfPatterns urlPatterns url (fun m => at_ m 1).

End MedRxiv.

Module NeurIPS.

Definition NeurIPSMetadataExtractor (super : MetadataExtractor)
    (document : Document) : MetadataExtractor :=
  {| extractTitle :=
       let metaTitle :=
         getMetaContent document (metaName "citation_title")
         || getMetaContent document (metaProperty "og:title") in
       metaTitle || extractTitle super;
     extractAuthors :=
       let citationAuthors := citationAuthors document in
       if 0 <? List.length citationAuthors
       then join (str ", ") citationAuthors
       else
         let authorElements :=
           querySelectorAll document (str ".author a, .author span") in
         if 0 <? List.length authorElements
         then join (str ", ") (texts authorElements)
         else extractAuthors super;
     extractDescription :=
       let metaDescription :=
         getMetaContent document (metaName "citation_abstract")
         || getMetaContent document (metaName "description")
         || getMetaContent document (metaProperty "og:description") in
       match (if truthy metaDescription then None
              else querySelector document (str ".abstract")) with
       | Some abstractSection => textOf abstractSection
       | None => metaDescription || extractDescription super
       end;
     extractPublishedDate :=
       getMetaContent document (metaName "citation_publication_date")
       || getMetaContent document (metaName "citation_date")
       || extractPublishedDate super;
     extractDoi := extractDoi super;
     extractJournalName :=
       getMetaContent document (metaName "citation_conference_title")
       || str "NeurIPS"
       || extractJournalName super;
     extractTags :=
       let keywords := keywordsOf document in
       if truthy keywords then splitKeywords keywords
       else extractTags super
  |}.

Definition id : jsstring := str "neurips".
Definition name : jsstring := str "NeurIPS".

Definition urlPatterns : list regex :=
  [ Lit (str "papers.nips.cc/paper/") ;; Group 1 (Plus digit)
    ;; Lit (str "/hash/") ;; Group 2 (Plus hexlow);
    Lit (str "papers.nips.cc/paper/") ;; Group 1 (Plus digit)
    ;; Lit (str "/file/") ;; Group 2 (Plus hexlow);
    Lit (str "proceedings.neurips.cc/paper/") ;; Group 1 (Plus digit)
    ;; Lit (str "/hash/") ;; Group 2 (Plus hexlow);
    Lit (str "proceedings.neurips.cc/paper/") ;; Group 1 (Plus digit)
    ;; Lit (str "/file/") ;; Group 2 (Plus hexlow);
    Lit (str "proceedings.neurips.cc/paper_files/paper/")
    ;; Group 1 (Plus digit) ;; Lit (str "/hash/")
    ;; Group 2 (Plus hexlow) ].

Definition extractPaperId (url : jsstring) : option jsstring :=
  forOfPatterns urlPatterns url
    (fun m => Some (tpl (at_ m 1) ++ str "-" ++ tpl (at_ m 2))).

End NeurIPS.

Module ACM.

Definition ACMMetadataExtractor (super : MetadataExtractor)
    (document : Document) : MetadataExtractor :=
  {| extractTitle :=
       let metaTitle :=
         getMetaContent document (metaName "citation_title")
         || getMetaContent document (metaProperty "og:title")
         || getMetaContent document (metaName "dc.Title") in
       metaTitle || extractTitle super;
     extractAuthors :=
       let citationAuthors := citationAuthors document in
       if 0 <? List.length citationAuthors
       then join (str ", ") citationAuthors
       else extractAuthors super;
     extractDescription :=
       let metaDescription :=
         getMetaContent document (metaName "description")
         || getMetaContent document (metaProperty "og:description") in
       metaDescription || extractDescription super;
     extractPublishedDate :=
       getMetaContent document (metaName "citation_publication_date")
       || getMetaContent document (metaName "citation_date")
       || getMetaContent document (metaName "dc.Date")
       || extractPublishedDate super;
     extractDoi :=
       getMetaContent document (metaName "citation_doi")
       || getMetaContent document (metaName "dc.Identifier")
       || extractDoi super;
     extractJournalName :=
       getMetaContent document (metaName "citation_journal_title")
       || getMetaContent document (metaName "citation_conference_title")
       || getMetaContent document (metaName "dc.Source")
       || extractJournalName super;
     extractTags :=
       let keywords := keywordsOf document in
       if truthy keywords then splitKeywords keywords
       else extractTags super
  |}.

Definition id : jsstring := str "acm".
Definition name : jsstring := str "ACM Digital Library".

Definition urlPatterns : list regex :=
  [ Lit (str "dl.acm.org/doi/")
    ;; Group 1 (Lit (str "10.") ;; Plus digit ;; Lit (str "/") ;; Plus digit);
    Lit (str "dl.acm.org/doi/abs/")
    ;; Group 1 (Lit (str "10.") ;; Plus digit ;; Lit (str "/") ;; Plus digit);
    Lit (str "dl.acm.org/citation.cfm?id=") ;; Group 1 (Plus digit) ].

Definition extractPaperId (url : jsstring) : option jsstring :=
  forOfPatterns urlPatterns url (fun m => at_ m 1).

End ACM.

Module SSRN.

Definition SSRNMetadataExtractor (super : MetadataExtractor)
    (document : Document) : MetadataExtractor :=
  {| extractTitle :=
       let metaTitle :=
         getMetaContent document (metaName "citation_title")
         || getMetaContent document (metaProperty "og:title") in
       metaTitle || extractTitle super;
     extractAuthors :=
       let citationAuthors := citationAuthors document in
       if 0 <? List.length citationAuthors
       then join (str ", ") citationAuthors
       else extractAuthors super;
     extractDescription :=
       let metaDescription :=
         getMetaContent document (metaName "description")
         || getMetaContent document (metaProperty "og:description") in
       metaDescription || extractDescription super;
     extractPublishedDate :=
       getMetaContent document (metaName "citation_publication_date")
       || getMetaContent document (metaName "citation_date")
       || getMetaContent document (metaName "citation_online_date")
       || extractPublishedDate super;
     extractDoi :=
       getMetaContent document (metaName "citation_doi")
       || extractDoi super;
     extractJournalName :=
       getMetaContent document (metaName "citation_journal_title")
       || str "SSRN"
       || extractJournalName super;
     extractTags :=
       let keywords := keywordsOf document in
       if truthy keywords then splitKeywords keywords
       else extractTags super
  |}.

Definition id : jsstring := str "ssrn".
Definition name : jsstring := str "SSRN".

Definition urlPatterns : list regex :=
  [ Lit (str "ssrn.com/abstract=") ;; Group 1 (Plus digit);
    Lit (str "papers.ssrn.com/sol3/papers.cfm?abstract_id=")
    ;; Group 1 (Plus digit) ].

Definition extractPaperId (url : jsstring) : option jsstring :=
  forOfPatterns urlPatterns url (fun m => at_ m 1).

End SSRN.

Module CVF.

Definition CVFMetadataExtractor (super : MetadataExtractor)
    (document : Document) : MetadataExtractor :=
  {| extractTitle :=
       let metaTitle :=
         getMetaContent document (metaName "citation_title")
         || getMetaContent document (metaProperty "og:title") in
       metaTitle || extractTitle super;
     extractAuthors :=
       let citationAuthors := citationAuthors document in
       if 0 <? List.length citationAuthors
       then join (str ", ") citationAuthors
       else
         let authorElements :=
           querySelectorAll document (str ".author a, #authors b") in
         if 0 <? List.length authorElements
         then join (str ", ") (texts authorElements)
         else extractAuthors super;
     extractDescription :=
       let metaDescription :=
         getMetaContent document (metaName "citation_abstract")
         || getMetaContent document (metaName "description")
         || getMetaContent document (metaProperty "og:description") in
       match (if truthy metaDescription then None
              else querySelector document (str "#abstract")) with
       | Some abstractDiv => textOf abstractDiv
       | None => metaDescription || extractDescription super
       end;
     extractPublishedDate :=
       getMetaContent document (metaName "citation_publication_date")
       || getMetaContent document (metaName "citation_date")
       || extractPublishedDate super;
     extractDoi := extractDoi super;
     extractJournalName :=
       getMetaContent document (metaName "citation_conference_title")
       || extractJournalName super;
     extractTags :=
       let keywords := keywordsOf document in
       if truthy keywords then splitKeywords keywords
       else extractTags super
  |}.

Definition id : jsstring := str "cvf".
Definition name : jsstring := str "CVF Open Access".

Definition urlPatterns : list regex :=
  [ Lit (str "openaccess.thecvf.com/content") ;; Cls (oneOf (str "_/"))
    ;; Group 1 (Plus upper) ;; Cls (oneOf (str "_/"))
    ;; Group 2 (Plus digit) ;; Cls (oneOf (str "_/"))
    ;; Lit (str "html") ;; Cls (oneOf (str "_/"))
    ;; Group 3 (Plus (noneOf (str "."))) ;; Lit (str ".html");
    Lit (str "openaccess.thecvf.com/content") ;; Cls (oneOf (str "_/"))
    ;; Group 1 (Plus upper) ;; Cls (oneOf (str "_/"))
    ;; Group 2 (Plus digit) ;; Cls (oneOf (str "_/"))
    ;; Lit (str "papers") ;; Cls (oneOf (str "_/"))
    ;; Group 3 (Plus (noneOf (str "."))) ;; Lit (str ".pdf") ].

Definition extractPaperId (url : jsstring) : option jsstring :=
  forOfPatterns urlPatterns url
    (fun m =>
       Some (tpl (at_ m 1) ++ str "-" ++ tpl (at_ m 2) ++ str "-"
             ++ tpl (at_ m 3))).

End CVF.

Module Springer.

Definition SpringerMetadataExtractor (super : MetadataExtractor)
    (document : Document) : MetadataExtractor :=
  {| extractTitle :=
       let metaTitle :=
         getMetaContent document (metaName "citation_title")
         || getMetaContent document (metaProperty "og:title")
         || getMetaContent document (metaName "dc.title") in
       metaTitle || extractTitle super;
     extractAuthors :=
       let citationAuthors := citationAuthors document in
       if 0 <? List.length citationAuthors
       then join (str ", ") citationAuthors
       else
         let dcCreators :=
           contents (querySelectorAll document (metaName "dc.creator")) in
         if 0 <? List.length dcCreators
         then join (str ", ") dcCreators
         else extractAuthors super;
     extractDescription :=
       let metaDescription :=
         getMetaContent document (metaName "dc.description")
         || getMetaContent document (metaName "description")
         || getMetaContent document (metaProperty "og:description") in
       metaDescription || extractDescription super;
     extractPublishedDate :=
       getMetaContent document (metaName "citation_publication_date")
       || getMetaContent document (metaName "citation_online_date")
       || getMetaContent document (metaName "dc.date")
       || extractPublishedDate super;
     extractDoi :=
       getMetaContent document (metaName "citation_doi")
       || getMetaContent document (metaName "dc.identifier")
       || extractDoi super;
     extractJournalName :=
       getMetaContent document (metaName "citation_journal_title")
       || getMetaContent document (metaName "citation_conference_title")
       || getMetaContent document (metaName "prism.publicationName")
       || extractJournalName super;
     extractTags :=
       let keywords := keywordsOf document in
       if truthy keywords then splitKeywords keywords
       else extractTags super
  |}.

Definition id : jsstring := str "springer".
Definition name : jsstring := str "Springer".

Definition urlPatterns : list regex :=
  [ Lit (str "link.springer.com/article/")
    ;; Group 1 (Lit (str "10.") ;; Plus digit ;; Lit (str "/")
                ;; Plus (noneOfNorSpace (str "?")));
    Lit (str "link.springer.com/chapter/")
    ;; Group 1 (Lit (str "10.") ;; Plus digit ;; Lit (str "/")
                ;; Plus (noneOfNorSpace (str "?"))) ].

Definition extractPaperId (url : jsstring) : option jsstring :=
  forOfPatterns urlPatterns url (fun m => at_ m 1).

End Springer.

Module IEEE.

Definition IEEEMetadataExtractor (super : MetadataExtractor)
    (document : Document) : MetadataExtractor :=
  {| extractTitle :=
       let metaTitle :=
         getMetaContent document (metaName "citation_title")
         || getMetaContent document (metaProperty "og:title") in
       metaTitle || extractTitle super;
     extractAuthors :=
       let citationAuthors := citationAuthors document in
       if 0 <? List.length citationAuthors
       then join (str ", ") citationAuthors
       else
         let authorElements :=
           querySelectorAll document (str ".authors-info .author span") in
         if 0 <? List.length authorElements
         then join (str ", ") (texts authorElements)
         else extractAuthors super;
     extractDescription :=
       let metaDescription :=
         getMetaContent document (metaName "description")
         || getMetaContent document (metaProperty "og:description") in
       match (if truthy metaDescription then None
              else querySelector document (str ".abstract-text")) with
       | Some abstractDiv => textOf abstractDiv
       | None => metaDescription || extractDescription super
       end;
     extractPublishedDate :=
       getMetaContent document (metaName "citation_publication_date")
       || getMetaContent document (metaName "citation_date")
       || getMetaContent document (metaName "citation_online_date")
       || extractPublishedDate super;
     extractDoi :=
       getMetaContent document (metaName "citation_doi")
       || extractDoi super;
     extractJournalName :=
       getMetaContent document (metaName "citation_journal_title")
       || getMetaContent document (metaName "citation_conference_title")
       || extractJournalName super;
     extractTags :=
       let keywords := keywordsOf document in
       if truthy keywords then splitKeywords keywords
       else
         let keywordElements :=
           querySelectorAll document (str ".keywords .keyword") in
         if 0 <? List.length keywordElements
         then texts keywordElements
         else extractTags super
  |}.

Definition id : jsstring := str "ieee".
Definition name : jsstring := str "IEEE Xplore".

Definition urlPatterns : list regex :=
  [ Lit (str "ieeexplore.ieee.org/document/") ;; Group 1 (Plus digit);
    Lit (str "ieeexplore.ieee.org/abstract/document/")
    ;; Group 1 (Plus digit) ].

Definition extractPaperId (url : jsstring) : option jsstring :=
  forOfPatterns urlPatterns url (fun m => at_ m 1).

End IEEE.

Module ACL.

Definition ACLMetadataExtractor (super : MetadataExtractor)
    (document : Document) : MetadataExtractor :=
  {| extractTitle :=
       let metaTitle :=
         getMetaContent document (metaName "citation_title")
         || getMetaContent document (metaProperty "og:title") in
       metaTitle || extractTitle super;
     extractAuthors :=
       let citationAuthors := citationAuthors document in
       if 0 <? List.length citationAuthors
       then join (str ", ") citationAuthors
       else extractAuthors super;
     extractDescription :=
       let metaDescription :=
         getMetaContent document (metaName "citation_abstract")
         || getMetaContent document (metaName "description")
         || getMetaContent document (metaProperty "og:description") in
       metaDescription || extractDescription super;
     extractPublishedDate :=
       getMetaContent document (metaName "citation_publication_date")
       || getMetaContent document (metaName "citation_date")
       || extractPublishedDate super;
     extractDoi :=
       getMetaContent document (metaName "citation_doi")
       || extractDoi super;
     extractJournalName :=
       getMetaContent document (metaName "citation_conference_title")
       || getMetaContent document (metaName "citation_journal_title")
       || extractJournalName super;
     extractTags :=
       let keywords := keywordsOf document in
       if truthy keywords then splitKeywords keywords
       else extractTags super
  |}.

Definition id : jsstring := str "acl".
Definition name : jsstring := str "ACL Anthology".

Definition urlPatterns : list regex :=
  [ Lit (str "aclanthology.org/")
    ;; Group 1 (Plus upperOrDigit ;; Lit (str ".") ;; Plus digit
                ;; Lit (str "-") ;; Plus digit);
    Lit (str "aclweb.org/anthology/")
    ;; Group 1 (Plus upperOrDigit ;; Lit (str ".") ;; Plus digit
                ;; Lit (str "-") ;; Plus digit) ].

Definition extractPaperId (url : jsstring) : option jsstring :=
  forOfPatterns urlPatterns url (fun m => at_ m 1).

End ACL.

(** The integrations whose source is at hand, in registry order. *)
Inductive publisher : Type :=
| springer | ieee | acm | acl | neurips | cvf | medrxiv | ssrn.

Definition publishers : list publisher :=
  [springer; ieee; acm; acl; neurips; cvf; medrxiv; ssrn].

Definition idOf (p : publisher) : jsstring :=
  match p with
  | springer => Springer.id | ieee => IEEE.id | acm => ACM.id
  | acl => ACL.id | neurips => NeurIPS.id | cvf => CVF.id
  | medrxiv => MedRxiv.id | ssrn => SSRN.id
  end.

Definition nameOf (p : publisher) : jsstring :=
  match p with
  | springer => Springer.name | ieee => IEEE.name | acm => ACM.name
  | acl => ACL.name | neurips => NeurIPS.name | cvf => CVF.name
  | medrxiv => MedRxiv.name | ssrn => SSRN.name
  end.

Definition urlPatternsOf (p : publisher) : list regex :=
  match p with
  | springer => Springer.urlPatterns | ieee => IEEE.urlPatterns
  | acm => ACM.urlPatterns | acl => ACL.urlPatterns
  | neurips => NeurIPS.urlPatterns | cvf => CVF.urlPatterns
  | medrxiv => MedRxiv.urlPatterns | ssrn => SSRN.urlPatterns
  end.

Definition extractPaperIdOf (p : publisher) : jsstring -> option jsstring :=
  match p with
  | springer => Springer.extractPaperId | ieee => IEEE.extractPaperId
  | acm => ACM.extractPaperId | acl => ACL.extractPaperId
  | neurips => NeurIPS.extractPaperId | cvf => CVF.extractPaperId
  | medrxiv => MedRxiv.extractPaperId | ssrn => SSRN.extractPaperId
  end.

(** [createMetadataExtractor]: the specialised extractor of a publisher, over
    the base-class part [super] of the object. *)
Definition createMetadataExtractor (p : publisher)
  : MetadataExtractor -> Document -> MetadataExtractor :=
  match p with
  | springer => Springer.SpringerMetadataExtractor
  | ieee => IEEE.IEEEMetadataExtractor
  | acm => ACM.ACMMetadataExtractor
  | acl => ACL.ACLMetadataExtractor
  | neurips => NeurIPS.NeurIPSMetadataExtractor
  | cvf => CVF.CVFMetadataExtractor
  | medrxiv => MedRxiv.MedRxivMetadataExtractor
  | ssrn => SSRN.SSRNMetadataExtractor
  end.

(** ** The registry *)

Module Registry.

(** Modelled from the spec: the interface [SourceIntegration] of [./types]
    (section 3: identity, ordered URL patterns, the function from a URL to
    an optional identifier), with the [contentScriptMatches] the registry
    reads. *)
Record SourceIntegration : Type := {
  id : jsstring;
  name : jsstring;
  urlPatterns : list regex;
  contentScriptMatches : list jsstring;
  extractPaperId : jsstring -> option jsstring
}.

(** [Array.prototype.find]. *)
Fixpoint arrayFind (A : Type) (f : A -> bool) (l : list A) : option A :=
  match l with
  | [] => None
  | x :: rest => if f x then Some x else arrayFind f rest
  end.

(** [Array.prototype.flatMap] with a callback that returns an array: the
    elements of each returned array are appended to the result. *)
Definition flatMap (A B : Type) (f : A -> list B) (l : list A) : list B :=
  fold_left (fun result x => result ++ f x) l [].

Section Queries.

(** The module-scope array [sourceIntegrations]. *)
Variable sourceIntegrations : list SourceIntegration.

Definition getAllIntegrations : list SourceIntegration :=
  sourceIntegrations.

Definition getIntegrationById (id' : jsstring) : option SourceIntegration :=
  arrayFind (fun integration => streq (id integration) id')
    sourceIntegrations.

Definition getAllContentScriptMatches : list jsstring :=
  flatMap (fun integration => contentScriptMatches integration)
    sourceIntegrations.

End Queries.

(** The singleton of a publisher; its [contentScriptMatches] come from
    [BaseSourceIntegration] ([../base-source]) and are left open. *)
Definition integration (p : publisher) (inherited : list jsstring)
  : SourceIntegration :=
  {| id := idOf p;
     name := nameOf p;
     urlPatterns := urlPatternsOf p;
     contentScriptMatches := inherited;
     extractPaperId := extractPaperIdOf p |}.

End Registry.

(** ** What the specification says, in its own words *)

(** The groups of a match that captured something. *)
Definition capturedGroups (m : matchArray) : list jsstring :=
  flat_map (fun g => match g with Some v => [v] | None => [] end) (tl m).

Definition matches (url : jsstring) (r : regex) : bool :=
  match jsMatch url r with Some _ => true | None => false end.

(** Section 4.2: the first pattern, in declared order, that matches the URL
    gives the identifier, its captured groups joined with a hyphen; no
    pattern matching gives none. *)
Definition paperIdSpec (patterns : list regex) (url : jsstring)
  : option jsstring :=
  match find (matches url) patterns with
  | Some r => option_map (fun m => join (str "-") (capturedGroups m))
                (jsMatch url r)
  | None => None
  end.

(** [String.prototype.startsWith] and [String.prototype.indexOf]. *)
Definition startsWith (s l : jsstring) : bool :=
  match literal l s with Some _ => true | None => false end.

Fixpoint indexOf (s l : jsstring) : option nat :=
  if startsWith s l then Some 0
  else
    match s with
    | [] => None
    | _ :: s' => option_map S (indexOf s' l)
    end.

(** A page carries a tag with a value when the first element its selector
    finds has that value, not empty, as its [content]; it lacks the tag when
    the selector finds nothing. *)
Definition carries (document : Document) (selector value : jsstring) : Prop :=
  exists el others,
    querySelectorAll document selector = el :: others
    /\ getAttribute (attributes el) (str "content") = Some value
    /\ value <> [].

Definition lacks (document : Document) (selector : jsstring) : Prop :=
  querySelectorAll document selector = [].

(** The string-valued fields of the metadata record. *)
Inductive field : Type :=
| title | description | publishedDate | doi | journalName.

Definition accessor (f : field) (e : MetadataExtractor) : jsstring :=
  match f with
  | title => extractTitle e
  | description => extractDescription e
  | publishedDate => extractPublishedDate e
  | doi => extractDoi e
  | journalName => extractJournalName e
  end.

(** An extractor with nothing to report. *)
Definition noMetadata : MetadataExtractor :=
  {| extractTitle := []; extractAuthors := []; extractDescription := [];
     extractPublishedDate := []; extractDoi := []; extractJournalName := [];
     extractTags := [] |}.

(** A [meta] element and a page given by the elements each selector finds. *)
Definition metaElement (attribute value content : string) : Element :=
  {| attributes := [(str attribute, str value); (str "content", str content)];
     textContent := Some [] |}.

Definition page (found : list (jsstring * Element)) : Document :=
  {| querySelectorAll := fun selector =>
       map snd (filter (fun entry => streq (fst entry) selector) found) |}.

Definition blankPage : Document := page [].

(** A page with a Dublin-Core identifier, a generic one and nothing else. *)
Definition identifierPage : Document :=
  page [ (metaName "DC.Identifier",
          metaElement "name" "DC.Identifier" "10.1101/2021.01.01.000001");
         (metaName "doi", metaElement "name" "doi" "generic-identifier") ].

(** The tag an accessor of a publisher tries first, when it is one of the
    publisher's own vocabulary ([citation_*], [dc.*]) and not a generic one. *)
Definition primaryTag (p : publisher) (f : field) : option jsstring :=
  match f, p with
  | title, _ => Some (metaName "citation_title")
  | description, (medrxiv | neurips | cvf | acl) =>
      Some (metaName "citation_abstract")
  | description, springer => Some (metaName "dc.description")
  | description, (acm | ssrn | ieee) => None
  | publishedDate, _ => Some (metaName "citation_publication_date")
  | doi, (neurips | cvf) => None
  | doi, _ => Some (metaName "citation_doi")
  | journalName, (neurips | cvf | acl) =>
      Some (metaName "citation_conference_title")
  | journalName, _ => Some (metaName "citation_journal_title")
  end.

(** The Dublin-Core title tag of the three title chains that have one. *)
Definition dublinCoreTitle (p : publisher) : option jsstring :=
  match p with
  | medrxiv => Some (metaName "DC.Title")
  | acm => Some (metaName "dc.Title")
  | springer => Some (metaName "dc.title")
  | _ => None
  end.

(** The tags of the publisher's vocabulary ([citation_*], [dc.*],
    [prism.*]) that the chain of an accessor tries, in this order, before
    any generic tag and before the base class. *)
Definition leadingTags (p : publisher) (f : field) : list jsstring :=
  match f, p with
  | title, _ => [metaName "citation_title"]
  | description, (medrxiv | neurips | cvf | acl) =>
      [metaName "citation_abstract"]
  | description, springer => [metaName "dc.description"]
  | description, (acm | ssrn | ieee) => []
  | publishedDate, medrxiv =>
      [ metaName "citation_publication_date";
        metaName "citation_online_date"; metaName "DC.Date" ]
  | publishedDate, (neurips | cvf | acl) =>
      [metaName "citation_publication_date"; metaName "citation_date"]
  | publishedDate, acm =>
      [ metaName "citation_publication_date"; metaName "citation_date";
        metaName "dc.Date" ]
  | publishedDate, (ssrn | ieee) =>
      [ metaName "citation_publication_date"; metaName "citation_date";
        metaName "citation_online_date" ]
  | publishedDate, springer =>
      [ metaName "citation_publication_date";
        metaName "citation_online_date"; metaName "dc.date" ]
  | doi, medrxiv => [metaName "citation_doi"; metaName "DC.Identifier"]
  | doi, acm => [metaName "citation_doi"; metaName "dc.Identifier"]
  | doi, springer => [metaName "citation_doi"; metaName "dc.identifier"]
  | doi, (ssrn | ieee | acl) => [metaName "citation_doi"]
  | doi, (neurips | cvf) => []
  | journalName, (medrxiv | ssrn) => [metaName "citation_journal_title"]
  | journalName, (neurips | cvf) => [metaName "citation_conference_title"]
  | journalName, acm =>
      [ metaName "citation_journal_title";
        metaName "citation_conference_title"; metaName "dc.Source" ]
  | journalName, springer =>
      [ metaName "citation_journal_title";
        metaName "citation_conference_title";
        metaName "prism.publicationName" ]
  | journalName, ieee =>
      [ metaName "citation_journal_title";
        metaName "citation_conference_title" ]
  | journalName, acl =>
      [ metaName "citation_conference_title";
        metaName "citation_journal_title" ]
  end.

(** The publisher name an extractor falls back on for the journal. *)
Definition hardCodedJournal (p : publisher) : option jsstring :=
  match p with
  | medrxiv => Some (str "medRxiv")
  | ssrn => Some (str "SSRN")
  | neurips => Some (str "NeurIPS")
  | _ => None
  end.

(** Every selector the extractor of a publisher queries. *)
Definition selectorsOf (p : publisher) : list jsstring :=
  match p with
  | medrxiv =>
      [ metaName "citation_title"; metaProperty "og:title";
        metaName "DC.Title"; metaName "citation_author";
        metaName "citation_abstract"; metaName "description";
        metaProperty "og:description"; metaName "citation_publication_date";
        metaName "citation_online_date"; metaName "DC.Date";
        metaName "citation_doi"; metaName "DC.Identifier";
        metaName "citation_journal_title"; metaName "citation_keywords";
        metaName "keywords" ]
  | neurips =>
      [ metaName "citation_title"; metaProperty "og:title";
        metaName "citation_author"; str ".author a, .author span";
        metaName "citation_abstract"; metaName "description";
        metaProperty "og:description"; str ".abstract";
        metaName "citation_publication_date"; metaName "citation_date";
        metaName "citation_conference_title"; metaName "citation_keywords";
        metaName "keywords" ]
  | acm =>
      [ metaName "citation_title"; metaProperty "og:title";
        metaName "dc.Title"; metaName "citation_author";
        metaName "description"; metaProperty "og:description";
        metaName "citation_publication_date"; metaName "citation_date";
        metaName "dc.Date"; metaName "citation_doi";
        metaName "dc.Identifier"; metaName "citation_journal_title";
        metaName "citation_conference_title"; metaName "dc.Source";
        metaName "citation_keywords"; metaName "keywords" ]
  | ssrn =>
      [ metaName "citation_title"; metaProperty "og:title";
        metaName "citation_author"; metaName "description";
        metaProperty "og:description"; metaName "citation_publication_date";
        metaName "citation_date"; metaName "citation_online_date";
        metaName "citation_doi"; metaName "citation_journal_title";
        metaName "citation_keywords"; metaName "keywords" ]
  | cvf =>
      [ metaName "citation_title"; metaProperty "og:title";
        metaName "citation_author"; str ".author a, #authors b";
        metaName "citation_abstract"; metaName "description";
        metaProperty "og:description"; str "#abstract";
        metaName "citation_publication_date"; metaName "citation_date";
        metaName "citation_conference_title"; metaName "citation_keywords";
        metaName "keywords" ]
  | springer =>
      [ metaName "citation_title"; metaProperty "og:title";
        metaName "dc.title"; metaName "citation_author";
        metaName "dc.creator"; metaName "dc.description";
        metaName "description"; metaProperty "og:description";
        metaName "citation_publication_date"; metaName "citation_online_date";
        metaName "dc.date"; metaName "citation_doi";
        metaName "dc.identifier"; metaName "citation_journal_title";
        metaName "citation_conference_title";
        metaName "prism.publicationName"; metaName "citation_keywords";
        metaName "keywords" ]
  | ieee =>
      [ metaName "citation_title"; metaProperty "og:title";
        metaName "citation_author"; str ".authors-info .author span";
        metaName "description"; metaProperty "og:description";
        str ".abstract-text"; metaName "citation_publication_date";
        metaName "citation_date"; metaName "citation_online_date";
        metaName "citation_doi"; metaName "citation_journal_title";
        metaName "citation_conference_title"; metaName "citation_keywords";
        metaName "keywords"; str ".keywords .keyword" ]
  | acl =>
      [ metaName "citation_title"; metaProperty "og:title";
        metaName "citation_author"; metaName "citation_abstract";
        metaName "description"; metaProperty "og:description";
        metaName "citation_publication_date"; metaName "citation_date";
        metaName "citation_doi"; metaName "citation_conference_title";
        metaName "citation_journal_title"; metaName "citation_keywords";
        metaName "keywords" ]
  end.

(** Pieces put back together around the separators that parted them. *)
Fixpoint weave (pieces : list jsstring) (seps : list ascii) : jsstring :=
  match pieces, seps with
  | piece :: pieces', c :: seps' => piece ++ c :: weave pieces' seps'
  | piece :: _, [] => piece
  | [], _ => []
  end.

(** [pieces] is [s] split on every separator: no piece holds a separator,
    and the pieces with one separator between neighbours make up [s]. *)
Definition SplitOn (sep : ascii -> bool) (s : jsstring)
    (pieces : list jsstring) : Prop :=
  exists seps,
    List.length pieces = S (List.length seps)
    /\ Forall (fun c => sep c = true) seps
    /\ Forall (Forall (fun c => sep c = false)) pieces
    /\ weave pieces seps = s.

Definition startsClean (t : jsstring) : Prop :=
  match t with c :: _ => space c = false | [] => True end.

(** [t] is [piece] without the white space at its two ends. *)
Definition TrimOf (piece t : jsstring) : Prop :=
  exists before after,
    piece = before ++ t ++ after
    /\ Forall (fun c => space c = true) before
    /\ Forall (fun c => space c = true) after
    /\ startsClean t /\ startsClean (rev t).


(** Group [j] is set in the captures. *)
Definition captured (j : nat) (caps : captures) : Prop := lookup j caps <> None.

(** The input stops a run of a class: it is over, or goes on with a
    character outside the class. *)
Definition stops (p : ascii -> bool) (s : jsstring) : Prop :=
  match s with c :: _ => p c = false | [] => True end.

(** A character that is not [v], not [?] and not white space. *)
Definition plainChar (c : ascii) : Prop :=
  c <> "v"%char /\ c <> "?"%char /\ space c = false.

(** The literal a pattern begins with (empty when it begins otherwise). *)
Fixpoint leading (r : regex) : jsstring :=
  match r with
  | Lit l => l
  | Cat r1 _ => leading r1
  | Group _ r1 => leading r1
  | _ => []
  end.

(** The least number of characters a pattern consumes. *)
Fixpoint minLength (r : regex) : nat :=
  match r with
  | Lit l => List.length l
  | Cls _ => 1
  | Plus _ => 1
  | Star _ => 0
  | Opt _ => 0
  | Cat r1 r2 => minLength r1 + minLength r2
  | Group _ r1 => minLength r1
  end.

(** Every capturing group of the pattern consumes a character at least. *)
Fixpoint groupsConsume (r : regex) : bool :=
  match r with
  | Cat r1 r2 => groupsConsume r1 && groupsConsume r2
  | Group _ r1 => (1 <=? minLength r1) && groupsConsume r1
  | _ => true
  end.

(** [x] is a part of [s]. *)
Definition occursIn (x s : jsstring) : Prop :=
  exists before after, s = before ++ x ++ after.

(** What is left of a URL is nothing, a query string or white space. *)
Definition queryOrEnd (rest : jsstring) : Prop :=
  match rest with
  | [] => True
  | c :: _ => c = "?"%char \/ space c = true
  end.

(** A character that is not [?] and not white space. *)
Definition pathChar (c : ascii) : Prop :=
  c <> "?"%char /\ space c = false.

(** The [content] values of a run of [meta] elements, in document order,
    the elements without a value left out. *)
Inductive Contents : list Element -> list jsstring -> Prop :=
| Contents_nil : Contents [] []
| Contents_value (el : Element) (c : jsstring) (els : list Element)
    (cs : list jsstring) :
    getAttribute (attributes el) (str "content") = Some c -> c <> [] ->
    Contents els cs -> Contents (el :: els) (c :: cs)
| Contents_skip (el : Element) (els : list Element) (cs : list jsstring) :
    getAttribute (attributes el) (str "content") = None
    \/ getAttribute (attributes el) (str "content") = Some [] ->
    Contents els cs -> Contents (el :: els) cs.

(** The text of an element is missing or white space only. *)
Definition blank (el : Element) : Prop :=
  match textContent el with
  | Some text => Forall (fun c => space c = true) text
  | None => True
  end.

(** The texts of a run of elements, in document order, each without the
    white space at its two ends, the blank elements left out. *)
Inductive Texts : list Element -> list jsstring -> Prop :=
| Texts_nil : Texts [] []
| Texts_value (el : Element) (text t : jsstring) (els : list Element)
    (ts : list jsstring) :
    textContent el = Some text -> TrimOf text t -> t <> [] ->
    Texts els ts -> Texts (el :: els) (t :: ts)
| Texts_skip (el : Element) (els : list Element) (ts : list jsstring) :
    blank el -> Texts els ts -> Texts (el :: els) ts.

(** A tag or a name with something in it and no white space at its ends. *)
Definition tidy (t : jsstring) : Prop :=
  t <> [] /\ startsClean t /\ startsClean (rev t).

(** The selector of the author elements an extractor reads when the page
    has no [citation_author], and of the element it reads the abstract
    from when the page has no description tag. *)
Definition authorSelector (p : publisher) : option jsstring :=
  match p with
  | neurips => Some (str ".author a, .author span")
  | cvf => Some (str ".author a, #authors b")
  | ieee => Some (str ".authors-info .author span")
  | _ => None
  end.

Definition abstractSelector (p : publisher) : option jsstring :=
  match p with
  | neurips => Some (str ".abstract")
  | cvf => Some (str "#abstract")
  | ieee => Some (str ".abstract-text")
  | _ => None
  end.

(** The description tags an extractor reads before anything else. *)
Definition descriptionTags (p : publisher) : list jsstring :=
  match p with
  | medrxiv | neurips | cvf | acl =>
      [ metaName "citation_abstract"; metaName "description";
        metaProperty "og:description" ]
  | springer =>
      [ metaName "dc.description"; metaName "description";
        metaProperty "og:description" ]
  | acm | ssrn | ieee =>
      [ metaName "description"; metaProperty "og:description" ]
  end.

(** The ten integrations of the registry whose source is not at hand. *)
Record AbsentIntegrations : Type := {
  arxivIntegration : Registry.SourceIntegration;
  openReviewIntegration : Registry.SourceIntegration;
  natureIntegration : Registry.SourceIntegration;
  pnasIntegration : Registry.SourceIntegration;
  scienceDirectIntegration : Registry.SourceIntegration;
  wileyIntegration : Registry.SourceIntegration;
  plosIntegration : Registry.SourceIntegration;
  bioRxivIntegration : Registry.SourceIntegration;
  semanticScholarIntegration : Registry.SourceIntegration;
  miscIntegration : Registry.SourceIntegration
}.

Definition absentIntegrations (absent : AbsentIntegrations)
  : list Registry.SourceIntegration :=
  [ arxivIntegration absent; openReviewIntegration absent;
    natureIntegration absent; pnasIntegration absent;
    scienceDirectIntegration absent; wileyIntegration absent;
    plosIntegration absent; bioRxivIntegration absent;
    semanticScholarIntegration absent; miscIntegration absent ].

(** The array [sourceIntegrations] of [registry.ts], its eighteen entries
    in their order: the ten absent integrations are taken as they come,
    the eight others with the match patterns they inherit. *)
Definition sourceIntegrations (absent : AbsentIntegrations)
    (inherited : publisher -> list jsstring)
  : list Registry.SourceIntegration :=
  [ arxivIntegration absent;
    openReviewIntegration absent;
    natureIntegration absent;
    pnasIntegration absent;
    scienceDirectIntegration absent;
    Registry.integration springer (inherited springer);
    Registry.integration ieee (inherited ieee);
    Registry.integration acm (inherited acm);
    Registry.integration acl (inherited acl);
    Registry.integration neurips (inherited neurips);
    Registry.integration cvf (inherited cvf);
    wileyIntegration absent;
    plosIntegration absent;
    bioRxivIntegration absent;
    Registry.integration medrxiv (inherited medrxiv);
    Registry.integration ssrn (inherited ssrn);
    semanticScholarIntegration absent;
    miscIntegration absent ].

(** An integration with an id and nothing else. *)
Definition bareIntegration (id : string) : Registry.SourceIntegration :=
  {| Registry.id := str id;
     Registry.name := str id;
     Registry.urlPatterns := [];
     Registry.contentScriptMatches := [];
     Registry.extractPaperId := fun _ => None |}.

Definition sampleAbsent : AbsentIntegrations :=
  {| arxivIntegration := bareIntegration "arxiv";
     openReviewIntegration := bareIntegration "openreview";
     natureIntegration := bareIntegration "nature";
     pnasIntegration := bareIntegration "pnas";
     scienceDirectIntegration := bareIntegration "sciencedirect";
     wileyIntegration := bareIntegration "wiley";
     plosIntegration := bareIntegration "plos";
     bioRxivIntegration := bareIntegration "biorxiv";
     semanticScholarIntegration := bareIntegration "semanticscholar";
     miscIntegration := bareIntegration "misc" |}.

(** An element with a text and no attribute. *)
Definition textElement (text : string) : Element :=
  {| attributes := []; textContent := Some (str text) |}.

(** A page with generic tags only, one with author tags, and one with
    the markup of a proceedings page and no tag. *)
Definition genericPage : Document :=
  page [ (metaName "author", metaElement "name" "author" "Ada Lovelace");
         (metaName "date", metaElement "name" "date" "1843-09-01") ].

Definition authorsPage : Document :=
  page [ (metaName "citation_author",
          metaElement "name" "citation_author" "Ada Lovelace");
         (metaName "citation_author",
          metaElement "name" "citation_author" "");
         (metaName "citation_author",
          metaElement "name" "citation_author" "Charles Babbage");
         (metaName "dc.creator",
          metaElement "name" "dc.creator" "Luigi Menabrea") ].

Definition creatorsPage : Document :=
  page [ (metaName "dc.creator",
          metaElement "name" "dc.creator" "Luigi Menabrea");
         (metaName "dc.creator",
          metaElement "name" "dc.creator" "Ada Lovelace") ].

Definition markupPage : Document :=
  page [ (str ".author a, .author span", textElement "  Ada Lovelace ");
         (str ".author a, .author span", textElement "   ");
         (str ".author a, .author span", textElement "Charles Babbage");
         (str ".abstract", textElement "  Notes on the engine. ");
         (str ".keywords .keyword", textElement " engines ");
         (str ".keywords .keyword", textElement "notes") ].

(** Pages and a registry to try the statements on. *)
Definition titlesPage (dublinCore : string) : Document :=
  page [ (metaProperty "og:title",
          metaElement "property" "og:title" "Open Graph title");
         (metaName dublinCore,
          metaElement "name" dublinCore "Dublin Core title") ].

Definition fullPage : Document :=
  page [ (metaName "citation_title",
          metaElement "name" "citation_title" "Citation title");
         (metaProperty "og:title",
          metaElement "property" "og:title" "Open Graph title");
         (metaName "DC.Title",
          metaElement "name" "DC.Title" "Dublin Core title");
         (metaName "keywords",
          metaElement "name" "keywords" " vision, learning ;; graphs ,") ].

Definition sampleRegistry : list Registry.SourceIntegration :=
  [ Registry.integration springer [str "*://link.springer.com/*"];
    Registry.integration acm [str "*://dl.acm.org/*"; str "*://portal.acm.org/*"];
    Registry.integration ssrn [] ].

(** * Properties *)

(** ** Strings *)

Lemma streq_eq (a b : jsstring) : streq a b = true <-> a = b.
Proof.
  revert b; induction a as [|x a IH]; intros [|y b]; simpl;
    try (split; (discriminate || reflexivity)).
  rewrite andb_true_iff, Ascii.eqb_eq, IH.
  split; [intros [-> ->]; reflexivity | intros H; inversion H; auto].
Qed.

Lemma streq_refl (a : jsstring) : streq a a = true.
Proof. apply streq_eq; reflexivity. Qed.

Lemma consumed_app (a b : jsstring) : consumed (a ++ b) b = a.
Proof.
  unfold consumed. rewrite length_app.
  replace (List.length a + List.length b - List.length b) with (List.length a)
    by lia.
  rewrite firstn_app, firstn_all, Nat.sub_diag. simpl. apply app_nil_r.
Qed.

(** The no-break space is white space for [trim] and for [\s]. *)
Example trim_no_break_space :
  trim (nbsp :: str " deep learning" ++ [nbsp]) = str "deep learning".
Proof. reflexivity. Qed.

Example keywords_no_break_space :
  splitKeywords (str "vision," ++ nbsp :: str "deep learning" ++ [nbsp])
  = [str "vision"; str "deep learning"].
Proof. reflexivity. Qed.

Example medrxiv_no_break_space :
  MedRxiv.extractPaperId
    (str "https://www.medrxiv.org/content/10.1101/2021.01.01"
     ++ nbsp :: str "000001v2")
  = Some (str "10.1101/2021.01.01").
Proof. reflexivity. Qed.

(** ** The matcher *)

Lemma literal_app (l s : jsstring) : literal l (l ++ s) = Some s.
Proof.
  induction l as [|a l IH]; simpl; [reflexivity|].
  rewrite Ascii.eqb_refl. exact IH.
Qed.

Lemma star_inv (A : Type) (p : ascii -> bool) (k : jsstring -> option A)
    (s : jsstring) (a : A) :
  star p k s = Some a -> exists s', k s' = Some a.
Proof.
  induction s as [|c s IH]; simpl; [eauto|].
  destruct (p c); [|eauto].
  destruct (star p k s) eqn:E; [|eauto].
  intros H; inversion H; subst. auto.
Qed.

(** The longest run is taken when what follows accepts it. *)
Lemma star_longest (A : Type) (p : ascii -> bool) (k : jsstring -> option A)
    (run_ rest : jsstring) (a : A) :
  Forall (fun c => p c = true) run_ ->
  k rest = Some a ->
  match rest with c :: _ => p c = false | [] => True end ->
  star p k (run_ ++ rest) = Some a.
Proof.
  intros Hrun Hk Hstop. induction Hrun as [|c run_ Hc _ IH]; simpl.
  - destruct rest as [|c rest]; simpl; [exact Hk|]. rewrite Hstop. exact Hk.
  - rewrite Hc, IH. reflexivity.
Qed.

(** A continuation that always accepts is given the input after the
    longest run. *)
Lemma star_total (A : Type) (p : ascii -> bool) (f : jsstring -> A)
    (s : jsstring) :
  exists s', star p (fun t => Some (f t)) s = Some (f s').
Proof.
  induction s as [|c s [s' IH]]; simpl; [eauto|].
  destruct (p c); [|eauto]. rewrite IH. eauto.
Qed.

(** A successful run hands its continuation captures in which every group
    of the pattern is set, and none that was set is lost. *)
Lemma run_inv (r : regex) :
  forall (A : Type) (s : jsstring) (caps : captures)
         (k : jsstring -> captures -> option A) (a : A),
    run r s caps k = Some a ->
    exists s' caps',
      k s' caps' = Some a
      /\ forall j, In j (groupsOf r) \/ captured j caps -> captured j caps'.
Proof.
  induction r as [l|p|p|p|p|r1 IH1 r2 IH2|i r1 IH1]; intros A s caps k a;
    simpl.
  - destruct (literal l s) as [s'|]; [|discriminate].
    intros H; exists s', caps; split; [exact H|]. intros ? [[]|]; auto.
  - destruct s as [|c s]; [discriminate|]. destruct (p c); [|discriminate].
    intros H; exists s, caps; split; [exact H|]. intros ? [[]|]; auto.
  - intros H. apply star_inv in H. destruct H as [s' H].
    exists s', caps; split; [exact H|]. intros ? [[]|]; auto.
  - destruct s as [|c s]; [discriminate|]. destruct (p c); [|discriminate].
    intros H. apply star_inv in H. destruct H as [s' H].
    exists s', caps; split; [exact H|]. intros ? [[]|]; auto.
  - assert (forall t, k t caps = Some a ->
              exists s' caps', k s' caps' = Some a
                /\ forall j, False \/ captured j caps -> captured j caps')
      as Hk by (intros t H; exists t, caps; split; [exact H|]; intros ? [[]|]; auto).
    destruct s as [|c s]; [apply Hk|]. destruct (p c); [|apply Hk].
    destruct (k s caps) eqn:E; [|apply Hk].
    intros H; inversion H; subst. eapply Hk; eauto.
  - intros H. apply IH1 in H. destruct H as (s1 & caps1 & H & H1).
    apply IH2 in H. destruct H as (s2 & caps2 & H & H2).
    exists s2, caps2; split; [exact H|].
    intros j [Hj|Hj]; [apply in_app_or in Hj; destruct Hj|]; auto.
  - intros H. apply IH1 in H. destruct H as (s1 & caps1 & H & H1).
    eexists _, _; split; [exact H|].
    intros j Hj. unfold captured; simpl.
    destruct (j =? i) eqn:E; [discriminate|].
    apply Nat.eqb_neq in E. apply H1. destruct Hj as [[Hj|Hj]|Hj]; auto.
    congruence.
Qed.

Lemma jsMatch_inv (r : regex) (url : jsstring) (m : matchArray) :
  jsMatch url r = Some m ->
  exists s rest caps,
    matchAt r s = Some (rest, caps) /\ m = mkArray r s rest caps.
Proof.
  induction url as [|c url IH]; simpl.
  - destruct (matchAt r []) as [[rest caps]|] eqn:E; [|discriminate].
    intros H; inversion H; eauto.
  - destruct (matchAt r (c :: url)) as [[rest caps]|] eqn:E; [|exact IH].
    intros H; inversion H; eauto.
Qed.

Lemma matchAt_captured (r : regex) (s rest : jsstring) (caps : captures) :
  matchAt r s = Some (rest, caps) ->
  forall j, In j (groupsOf r) -> captured j caps.
Proof.
  unfold matchAt. intros H. apply run_inv in H.
  destruct H as (s' & caps' & H & Hall). inversion H; subst. auto.
Qed.

(** The match array of a pattern with one, two or three groups. *)
Lemma match_one_group (r : regex) (url : jsstring) (m : matchArray) :
  groupsOf r = [1] -> jsMatch url r = Some m ->
  exists w g1, m = [Some w; Some g1].
Proof.
  intros Hg H. apply jsMatch_inv in H. destruct H as (s & rest & caps & H & ->).
  pose proof (@matchAt_captured _ _ _ _ H) as Hc. rewrite Hg in Hc.
  unfold mkArray, ngroups. rewrite Hg. simpl.
  assert (captured 1 caps) as H1 by (apply Hc; simpl; auto).
  unfold captured in H1. destruct (lookup 1 caps); [eauto|congruence].
Qed.

Lemma match_two_groups (r : regex) (url : jsstring) (m : matchArray) :
  groupsOf r = [1; 2] -> jsMatch url r = Some m ->
  exists w g1 g2, m = [Some w; Some g1; Some g2].
Proof.
  intros Hg H. apply jsMatch_inv in H. destruct H as (s & rest & caps & H & ->).
  pose proof (@matchAt_captured _ _ _ _ H) as Hc. rewrite Hg in Hc.
  unfold mkArray, ngroups. rewrite Hg. simpl.
  assert (captured 1 caps) as H1 by (apply Hc; simpl; auto).
  assert (captured 2 caps) as H2 by (apply Hc; simpl; auto).
  unfold captured in H1, H2.
  destruct (lookup 1 caps); [|congruence].
  destruct (lookup 2 caps); [eauto|congruence].
Qed.

Lemma match_three_groups (r : regex) (url : jsstring) (m : matchArray) :
  groupsOf r = [1; 2; 3] -> jsMatch url r = Some m ->
  exists w g1 g2 g3, m = [Some w; Some g1; Some g2; Some g3].
Proof.
  intros Hg H. apply jsMatch_inv in H. destruct H as (s & rest & caps & H & ->).
  pose proof (@matchAt_captured _ _ _ _ H) as Hc. rewrite Hg in Hc.
  unfold mkArray, ngroups. rewrite Hg. simpl.
  assert (captured 1 caps) as H1 by (apply Hc; simpl; auto).
  assert (captured 2 caps) as H2 by (apply Hc; simpl; auto).
  assert (captured 3 caps) as H3 by (apply Hc; simpl; auto).
  unfold captured in H1, H2, H3.
  destruct (lookup 1 caps); [|congruence].
  destruct (lookup 2 caps); [|congruence].
  destruct (lookup 3 caps); [eauto|congruence].
Qed.

(** The loop of [extractPaperId] against the specification's wording, for
    any way of building the identifier that agrees with joining the groups. *)
Lemma forOfPatterns_spec (patterns : list regex) (url : jsstring)
    (ret : matchArray -> option jsstring) :
  (forall r m, In r patterns -> jsMatch url r = Some m ->
               ret m = Some (join (str "-") (capturedGroups m))) ->
  forOfPatterns patterns url ret = paperIdSpec patterns url.
Proof.
  unfold paperIdSpec. induction patterns as [|r rest IH]; intros Hret; simpl.
  - reflexivity.
  - unfold matches at 1. destruct (jsMatch url r) as [m|] eqn:E.
    + rewrite E. simpl. apply (Hret r m); simpl; auto.
    + apply IH. intros r' m' Hin. apply (Hret r' m'). simpl; auto.
Qed.

Ltac each_pattern H :=
  simpl in H;
  repeat match type of H with
         | _ \/ _ => destruct H as [H|H]
         | False => destruct H
         end.

Lemma returns_group_one (patterns : list regex) (url : jsstring) :
  Forall (fun r => groupsOf r = [1]) patterns ->
  forOfPatterns patterns url (fun m => at_ m 1) = paperIdSpec patterns url.
Proof.
  intros Hall. apply forOfPatterns_spec. intros r m Hin Hm.
  rewrite Forall_forall in Hall.
  destruct (@match_one_group r url m (Hall r Hin) Hm) as (w & g1 & ->).
  reflexivity.
Qed.

(** C1. For every integration and every URL, [extractPaperId] returns what
    the first pattern, in declared order, that matches the URL captured: the
    one group of the single-group patterns, the groups joined with a hyphen
    for NeurIPS (year and hash) and CVF (conference, year and slug); and it
    returns none when no pattern matches. *)
Theorem extractPaperId_first_match (p : publisher) (url : jsstring) :
  extractPaperIdOf p url = paperIdSpec (urlPatternsOf p) url.
Proof.
  destruct p; simpl;
    try (apply returns_group_one; repeat constructor).
  - apply forOfPatterns_spec. intros r m Hin Hm.
    assert (groupsOf r = [1; 2]) as Hg by (each_pattern Hin; subst r; reflexivity).
    destruct (@match_two_groups r url m Hg Hm) as (w & g1 & g2 & ->).
    reflexivity.
  - apply forOfPatterns_spec. intros r m Hin Hm.
    assert (groupsOf r = [1; 2; 3]) as Hg
        by (each_pattern Hin; subst r; reflexivity).
    destruct (@match_three_groups r url m Hg Hm) as (w & g1 & g2 & g3 & ->).
    reflexivity.
Qed.

(** The identifiers of a few sample URLs. *)
Example neurips_sample :
  NeurIPS.extractPaperId
    (str "https://papers.nips.cc/paper/2020/hash/abc123def-Abstract.html")
  = Some (str "2020-abc123def").
Proof. reflexivity. Qed.

Example cvf_sample :
  CVF.extractPaperId
    (str "https://openaccess.thecvf.com/content_ICCV_2019/papers/He_X_ICCV_2019_paper.pdf")
  = Some (str "ICCV-2019-He_X_ICCV_2019_paper").
Proof. reflexivity. Qed.

Example medrxiv_early_sample :
  MedRxiv.extractPaperId
    (str "https://www.medrxiv.org/content/early/2020/01/02/19001234")
  = Some (str "19001234").
Proof. reflexivity. Qed.

Example unknown_url_sample :
  map (fun p => extractPaperIdOf p (str "https://example.org/paper/1"))
    publishers
  = map (fun _ => None) publishers.
Proof. reflexivity. Qed.

(** ** Matching step by step *)

Lemma run_Cat (A : Type) (r1 r2 : regex) (s : jsstring) (caps : captures)
    (k : jsstring -> captures -> option A) :
  run (r1 ;; r2) s caps k = run r1 s caps (fun s' caps' => run r2 s' caps' k).
Proof. reflexivity. Qed.

Lemma run_Group (A : Type) (i : nat) (r : regex) (s : jsstring)
    (caps : captures) (k : jsstring -> captures -> option A) :
  run (Group i r) s caps k
  = run r s caps (fun s' caps' => k s' ((i, consumed s s') :: caps')).
Proof. reflexivity. Qed.

Lemma run_Lit (A : Type) (l s : jsstring) (caps : captures)
    (k : jsstring -> captures -> option A) :
  run (Lit l) (l ++ s) caps k = k s caps.
Proof. simpl. rewrite literal_app. reflexivity. Qed.

Lemma run_Plus (A : Type) (p : ascii -> bool) (xs s : jsstring)
    (caps : captures) (k : jsstring -> captures -> option A) (a : A) :
  xs <> [] -> Forall (fun c => p c = true) xs -> stops p s ->
  k s caps = Some a ->
  run (Plus p) (xs ++ s) caps k = Some a.
Proof.
  intros Hne Hxs Hstop Hk. destruct Hxs as [|c xs Hc Hxs]; [congruence|].
  simpl. rewrite Hc. apply star_longest; assumption.
Qed.

Lemma run_Opt_taken (A : Type) (p : ascii -> bool) (c : ascii) (s : jsstring)
    (caps : captures) (k : jsstring -> captures -> option A) (a : A) :
  p c = true -> k s caps = Some a -> run (Opt p) (c :: s) caps k = Some a.
Proof. simpl. intros -> ->. reflexivity. Qed.

Lemma run_Star_end (p : ascii -> bool) (s : jsstring) (caps : captures) :
  exists s', run (Star p) s caps (fun s' caps' => Some (s', caps'))
             = Some (s', caps).
Proof. simpl. apply (star_total p (fun t => (t, caps))). Qed.

Lemma startsWith_false (s l : jsstring) :
  startsWith s l = false -> literal l s = None.
Proof. unfold startsWith. destruct (literal l s); congruence. Qed.

(** A pattern that begins with a literal matches nowhere before the first
    occurrence of the literal. *)
Lemma jsMatch_skip (l : jsstring) (r : regex) (pre t : jsstring) :
  indexOf (pre ++ t) l = Some (List.length pre) ->
  jsMatch (pre ++ t) (Lit l ;; r) = jsMatch t (Lit l ;; r).
Proof.
  induction pre as [|c pre IH]; [reflexivity|].
  cbn [app indexOf List.length].
  destruct (startsWith (c :: pre ++ t) l) eqn:E; [discriminate|].
  intros H. cbn [jsMatch]. unfold matchAt at 1. cbn [run].
  rewrite (@startsWith_false _ _ E). apply IH.
  destruct (indexOf (pre ++ t) l); simpl in H; congruence.
Qed.

Lemma jsMatch_here (r : regex) (s rest : jsstring) (caps : captures) :
  matchAt r s = Some (rest, caps) ->
  jsMatch s r = Some (mkArray r s rest caps).
Proof. destruct s; simpl; intros ->; reflexivity. Qed.

Lemma plainChar_class (c : ascii) :
  plainChar c -> noneOfNorSpace (str "v?") c = true.
Proof.
  intros (Hv & Hq & Hs). unfold noneOfNorSpace, oneOf. simpl.
  rewrite Hs. apply Ascii.eqb_neq in Hv, Hq. rewrite Hv, Hq. reflexivity.
Qed.

Lemma medrxiv_matchAt (registrant suffix rest : jsstring) :
  registrant <> [] -> Forall (fun c => digit c = true) registrant ->
  suffix <> [] ->
  Forall (fun c => noneOfNorSpace (str "v?") c = true) suffix ->
  exists rest',
    matchAt
      (Lit (str "medrxiv.org/content/")
       ;; Group 1 (Lit (str "10.") ;; Plus digit ;; Lit (str "/")
                   ;; Plus (noneOfNorSpace (str "v?")))
       ;; Opt (oneOf (str "v")) ;; Star digit)
      (str "medrxiv.org/content/"
       ++ (str "10." ++ registrant ++ str "/" ++ suffix) ++ str "v" ++ rest)
    = Some (rest', [(1, str "10." ++ registrant ++ str "/" ++ suffix)]).
Proof.
  intros Hr Hrd Hs Hsc.
  set (doi := str "10." ++ registrant ++ str "/" ++ suffix).
  destruct (run_Star_end digit rest [(1, doi)]) as [rest' Hrest].
  exists rest'. unfold matchAt.
  rewrite run_Cat, run_Lit, run_Cat, run_Group.
  assert (doi ++ str "v" ++ rest
          = str "10." ++ registrant ++ str "/" ++ suffix ++ str "v" ++ rest)
    as Hassoc by (unfold doi; repeat rewrite <- app_assoc; reflexivity).
  rewrite Hassoc at 1.
  rewrite run_Cat, run_Lit, run_Cat.
  apply run_Plus; [assumption|assumption|exact eq_refl|].
  rewrite run_Cat, run_Lit.
  apply run_Plus; [assumption|assumption|exact eq_refl|].
  cbv beta. rewrite consumed_app, run_Cat.
  apply run_Opt_taken; [reflexivity|exact Hrest].
Qed.

(** C2, as amended. A medRxiv content URL that carries a DOI ([10.], a
    registrant number, [/], a suffix) whose suffix holds no [v], no [?] and
    no white space, as the dated medRxiv suffixes are, followed by a version
    marker ([v] and what comes after it) yields the bare DOI, the version
    marker left out.  The URL is read from the first [medrxiv.org/content/]
    it holds. *)
Theorem medrxiv_drops_version (pre registrant suffix rest : jsstring) :
  let doi := str "10." ++ registrant ++ str "/" ++ suffix in
  let url := pre ++ str "medrxiv.org/content/" ++ doi ++ str "v" ++ rest in
  registrant <> [] -> Forall (fun c => digit c = true) registrant ->
  suffix <> [] -> Forall plainChar suffix ->
  indexOf url (str "medrxiv.org/content/") = Some (List.length pre) ->
  MedRxiv.extractPaperId url = Some doi.
Proof.
  intros doi url Hr Hrd Hs Hsc Hfirst.
  destruct (@medrxiv_matchAt registrant suffix rest Hr Hrd Hs) as [rest' Hm].
  { eapply Forall_impl; [|exact Hsc]. apply plainChar_class. }
  unfold MedRxiv.extractPaperId, MedRxiv.urlPatterns. cbn [forOfPatterns].
  unfold url. rewrite jsMatch_skip by exact Hfirst.
  fold doi in Hm. rewrite (@jsMatch_here _ _ _ _ Hm). reflexivity.
Qed.

Lemma medrxiv_drops_version_witness :
  MedRxiv.extractPaperId
    (str "https://www.medrxiv.org/content/10.1101/2021.01.01.000001v2")
  = Some (str "10.1101/2021.01.01.000001").
Proof.
  refine (@medrxiv_drops_version (str "https://www.") (str "1101")
            (str "2021.01.01.000001") (str "2") _ _ _ _ _).
  - discriminate.
  - repeat constructor.
  - discriminate.
  - repeat (constructor;
            [split; [discriminate|split; [discriminate|reflexivity]]|]).
    constructor.
  - reflexivity.
Defined.

(** C2, the claim as stated fails: the DOI [10.1101/2020.05.05.rev1] holds
    a [v], the pattern stops the suffix there, and the identifier is cut
    short of the DOI that the version marker [v2] follows. *)
Lemma medrxiv_suffix_with_v :
  MedRxiv.extractPaperId
    (str "https://www.medrxiv.org/content/10.1101/2020.05.05.rev1v2")
  = Some (str "10.1101/2020.05.05.re")
  /\ streq (str "10.1101/2020.05.05.re") (str "10.1101/2020.05.05.rev1")
     = false.
Proof. split; reflexivity. Qed.

Lemma acm_matchAt (registrant leading : jsstring) (c : ascii)
    (rest : jsstring) :
  registrant <> [] -> Forall (fun d => digit d = true) registrant ->
  leading <> [] -> Forall (fun d => digit d = true) leading ->
  digit c = false ->
  matchAt
    (Lit (str "dl.acm.org/doi/")
     ;; Group 1 (Lit (str "10.") ;; Plus digit ;; Lit (str "/") ;; Plus digit))
    (str "dl.acm.org/doi/"
     ++ (str "10." ++ registrant ++ str "/" ++ leading) ++ c :: rest)
  = Some (c :: rest, [(1, str "10." ++ registrant ++ str "/" ++ leading)]).
Proof.
  intros Hr Hrd Hl Hld Hc.
  set (id := str "10." ++ registrant ++ str "/" ++ leading).
  unfold matchAt. rewrite run_Cat, run_Lit, run_Group.
  assert (id ++ c :: rest
          = str "10." ++ registrant ++ str "/" ++ leading ++ c :: rest)
    as Hassoc by (unfold id; repeat rewrite <- app_assoc; reflexivity).
  rewrite Hassoc at 1.
  rewrite run_Cat, run_Lit, run_Cat.
  apply run_Plus; [assumption|assumption|exact eq_refl|].
  rewrite run_Cat, run_Lit.
  apply run_Plus; [assumption|assumption|exact Hc|].
  cbv beta. rewrite consumed_app. reflexivity.
Qed.

(** C10, as amended. An ACM URL [dl.acm.org/doi/<prefix>/<suffix>] whose
    suffix begins with one digit or more and goes on with a character that
    is not a digit yields the prefix and the leading digits of the suffix
    only: the rest of the suffix is cut off. *)
Theorem acm_truncates_suffix (pre registrant leading : jsstring) (c : ascii)
    (rest : jsstring) :
  let url := pre ++ str "dl.acm.org/doi/"
             ++ (str "10." ++ registrant ++ str "/" ++ leading) ++ c :: rest in
  registrant <> [] -> Forall (fun d => digit d = true) registrant ->
  leading <> [] -> Forall (fun d => digit d = true) leading ->
  digit c = false ->
  indexOf url (str "dl.acm.org/doi/") = Some (List.length pre) ->
  ACM.extractPaperId url
  = Some (str "10." ++ registrant ++ str "/" ++ leading).
Proof.
  intros url Hr Hrd Hl Hld Hc Hfirst.
  pose proof (@acm_matchAt registrant leading c rest Hr Hrd Hl Hld Hc) as Hm.
  unfold ACM.extractPaperId, ACM.urlPatterns. cbn [forOfPatterns].
  unfold url. rewrite jsMatch_skip by exact Hfirst.
  rewrite (@jsMatch_here _ _ _ _ Hm). reflexivity.
Qed.

Lemma acm_truncates_suffix_witness :
  ACM.extractPaperId (str "https://dl.acm.org/doi/10.1145/3375627.3375820")
  = Some (str "10.1145/3375627").
Proof.
  refine (@acm_truncates_suffix (str "https://") (str "1145") (str "3375627")
            "."%char (str "3375820") _ _ _ _ _ _).
  - discriminate.
  - repeat constructor.
  - discriminate.
  - repeat constructor.
  - reflexivity.
  - reflexivity.
Defined.

(** C10, the claim as stated fails: the suffix [ICSE.2019.00010] holds
    characters that are not digits, the claim promises the prefix with the
    leading digits of the suffix, and no identifier at all comes back. *)
Lemma acm_suffix_without_leading_digit :
  ACM.extractPaperId (str "https://dl.acm.org/doi/10.1109/ICSE.2019.00010")
  = None
  /\ forallb digit (str "ICSE.2019.00010") = false.
Proof. split; reflexivity. Qed.

(** ** The registry *)

Section RegistryFacts.

Import Registry.

Lemma flatMap_from (A B : Type) (f : A -> list B) (l : list A)
    (result : list B) :
  fold_left (fun result x => result ++ f x) l result
  = result ++ List.concat (map f l).
Proof.
  revert result; induction l as [|x l IH]; intros result; simpl.
  - symmetry; apply app_nil_r.
  - rewrite IH, app_assoc. reflexivity.
Qed.

Lemma flatMap_concat (A B : Type) (f : A -> list B) (l : list A) :
  flatMap f l = List.concat (map f l).
Proof. unfold flatMap. apply flatMap_from. Qed.

Lemma length_concat_sum (B : Type) (ls : list (list B)) :
  List.length (List.concat ls) = list_sum (map (@List.length B) ls).
Proof.
  induction ls as [|l ls IH]; simpl; [reflexivity|].
  rewrite length_app, IH. reflexivity.
Qed.

Lemma arrayFind_none (A : Type) (f : A -> bool) (l : list A) :
  arrayFind f l = None <-> forall x, In x l -> f x = false.
Proof.
  induction l as [|a l IH]; simpl.
  - split; [intros _ x []|reflexivity].
  - destruct (f a) eqn:E.
    + split; [discriminate|]. intros H. rewrite (H a) in E; auto.
      discriminate.
    + rewrite IH. split.
      * intros H x [<-|Hx]; auto.
      * intros H x Hx. apply H; auto.
Qed.

Lemma arrayFind_some (A : Type) (f : A -> bool) (l : list A) (x : A) :
  arrayFind f l = Some x ->
  exists before after,
    l = before ++ x :: after /\ f x = true
    /\ forall y, In y before -> f y = false.
Proof.
  induction l as [|a l IH]; simpl; [discriminate|].
  destruct (f a) eqn:E.
  - intros H; inversion H; subst. exists [], l. simpl. tauto.
  - intros H. destruct (IH H) as (before & after & -> & Hx & Hb).
    exists (a :: before), after. simpl. repeat split; auto.
    intros y [<-|Hy]; auto.
Qed.

End RegistryFacts.

(** C6. [getAllContentScriptMatches] is the concatenation, in registry
    order, of the integrations' match patterns: its length is the sum of
    their lengths, and the patterns of each integration stand together,
    after those of the integrations before it and ahead of those of the
    integrations after it. *)
Theorem getAllContentScriptMatches_concatenation
    (sourceIntegrations : list Registry.SourceIntegration) :
  Registry.getAllContentScriptMatches sourceIntegrations
  = List.concat (map (@Registry.contentScriptMatches) sourceIntegrations)
  /\ List.length (Registry.getAllContentScriptMatches sourceIntegrations)
     = list_sum (map (fun i => List.length (Registry.contentScriptMatches i))
                   sourceIntegrations)
  /\ forall before i after,
       sourceIntegrations = before ++ i :: after ->
       Registry.getAllContentScriptMatches sourceIntegrations
       = Registry.getAllContentScriptMatches before
         ++ Registry.contentScriptMatches i
         ++ Registry.getAllContentScriptMatches after.
Proof.
  unfold Registry.getAllContentScriptMatches.
  repeat split.
  - apply flatMap_concat.
  - rewrite flatMap_concat, length_concat_sum, map_map. reflexivity.
  - intros before i after ->. rewrite !flatMap_concat.
    rewrite map_app, List.concat_app. reflexivity.
Qed.

Lemma getAllContentScriptMatches_concatenation_witness :
  Registry.getAllContentScriptMatches sampleRegistry
  = [str "*://link.springer.com/*"; str "*://dl.acm.org/*";
     str "*://portal.acm.org/*"]
  /\ List.length (Registry.getAllContentScriptMatches sampleRegistry) = 1 + 2 + 0
  /\ Registry.getAllContentScriptMatches sampleRegistry
     = Registry.getAllContentScriptMatches
         [Registry.integration springer [str "*://link.springer.com/*"]]
       ++ [str "*://dl.acm.org/*"; str "*://portal.acm.org/*"]
       ++ Registry.getAllContentScriptMatches [Registry.integration ssrn []].
Proof.
  destruct (getAllContentScriptMatches_concatenation sampleRegistry)
    as (Hall & Hlen & Hpart).
  split; [rewrite Hall; reflexivity|].
  split; [rewrite Hlen; reflexivity|].
  exact (Hpart [Registry.integration springer [str "*://link.springer.com/*"]]
           (Registry.integration acm
              [str "*://dl.acm.org/*"; str "*://portal.acm.org/*"])
           [Registry.integration ssrn []] eq_refl).
Defined.

(** C7. [getIntegrationById] returns none exactly when no registered
    integration has the id; what it returns is registered, has the id, and
    is the first to have it; and with ids that are all different, as the
    registry's are, it is the one integration with that id. *)
Theorem getIntegrationById_exact
    (sourceIntegrations : list Registry.SourceIntegration) (id : jsstring) :
  (Registry.getIntegrationById sourceIntegrations id = None
   <-> forall i, In i sourceIntegrations -> Registry.id i <> id)
  /\ (forall i,
        Registry.getIntegrationById sourceIntegrations id = Some i ->
        Registry.id i = id
        /\ exists before after,
             sourceIntegrations = before ++ i :: after
             /\ forall j, In j before -> Registry.id j <> id)
  /\ (NoDup (map (@Registry.id) sourceIntegrations) ->
      forall i, In i sourceIntegrations -> Registry.id i = id ->
                Registry.getIntegrationById sourceIntegrations id = Some i).
Proof.
  unfold Registry.getIntegrationById. split; [|split].
  - rewrite arrayFind_none. split; intros H i Hi.
    + intros Heq. apply streq_eq in Heq. rewrite (H i Hi) in Heq.
      discriminate.
    + destruct (streq (Registry.id i) id) eqn:E; [|reflexivity].
      apply streq_eq in E. destruct (H i Hi E).
  - intros i H. apply arrayFind_some in H.
    destruct H as (before & after & Hl & Hi & Hb).
    split; [apply streq_eq; exact Hi|].
    exists before, after. split; [exact Hl|].
    intros j Hj Heq. apply streq_eq in Heq. rewrite (Hb j Hj) in Heq.
    discriminate.
  - induction sourceIntegrations as [|a l IH]; simpl; intros Hnd i Hi Heq.
    + destruct Hi.
    + inversion Hnd as [|? ? Hnotin Hnd']; subst.
      destruct Hi as [->|Hi].
      * rewrite streq_refl. reflexivity.
      * destruct (streq (Registry.id a) (Registry.id i)) eqn:E.
        -- apply streq_eq in E. exfalso. apply Hnotin. rewrite E.
           apply in_map; exact Hi.
        -- apply IH; auto.
Qed.

Lemma getIntegrationById_exact_witness :
  Registry.getIntegrationById sampleRegistry (str "acm")
  = Some (Registry.integration acm
            [str "*://dl.acm.org/*"; str "*://portal.acm.org/*"])
  /\ Registry.getIntegrationById sampleRegistry (str "arxiv") = None.
Proof.
  split.
  - refine (proj2 (proj2 (getIntegrationById_exact sampleRegistry (str "acm")))
              _ _ _ _).
    + repeat constructor; simpl; intros H;
        repeat (destruct H as [H|H]; [discriminate H|]); exact H.
    + simpl. right. left. reflexivity.
    + reflexivity.
  - apply (proj1 (getIntegrationById_exact sampleRegistry (str "arxiv"))).
    intros i Hi. simpl in Hi.
    repeat (destruct Hi as [<-|Hi]; [discriminate|]). destruct Hi.
Defined.

(** ** Metadata extractors *)

Local Arguments metaName : simpl never.
Local Arguments metaProperty : simpl never.
Local Arguments str : simpl never.

Lemma getMetaContent_lacks (document : Document) (selector : jsstring) :
  lacks document selector -> getMetaContent document selector = [].
Proof.
  unfold lacks, getMetaContent, querySelector. intros ->. reflexivity.
Qed.

Lemma getMetaContent_carries (document : Document)
    (selector value : jsstring) :
  carries document selector value ->
  getMetaContent document selector = value.
Proof.
  intros (el & others & Hq & Ha & _).
  unfold getMetaContent, querySelector. rewrite Hq. simpl. rewrite Ha.
  reflexivity.
Qed.

Lemma carries_nonempty (document : Document) (selector value : jsstring) :
  carries document selector value -> value <> [].
Proof. intros (el & others & _ & _ & H). exact H. Qed.

(** Split a [Forall] over an explicit list into its members. *)
Ltac members H :=
  repeat match type of H with
         | Forall _ (_ :: _) =>
             let H1 := fresh "Hlacks" in
             let H2 := fresh "Hrest" in
             inversion H as [|? ? H1 H2]; subst; clear H; rename H2 into H
         end.

Ltac absent :=
  repeat match goal with
         | H : lacks _ _ |- _ =>
             unfold lacks in H; rewrite ?H; clear H
         end.

(** C9. The journal name of the medRxiv, SSRN and NeurIPS extractors is
    never empty: it is the publisher's literal name when the journal (or
    conference) title tag has no value, and whatever the base class would
    answer plays no part in it. *)
Theorem journalName_hard_coded (p : publisher) (literal : jsstring)
    (super other : MetadataExtractor) (document : Document) :
  hardCodedJournal p = Some literal ->
  extractJournalName (createMetadataExtractor p super document) <> []
  /\ (forall tag, primaryTag p journalName = Some tag ->
                  getMetaContent document tag = [] ->
                  extractJournalName (createMetadataExtractor p super document)
                  = literal)
  /\ extractJournalName (createMetadataExtractor p super document)
     = extractJournalName (createMetadataExtractor p other document).
Proof.
  intros Hp.
  destruct p; simpl in Hp; try discriminate; inversion Hp; subst literal;
    cbn [createMetadataExtractor primaryTag];
    unfold NeurIPS.NeurIPSMetadataExtractor, MedRxiv.MedRxivMetadataExtractor,
      SSRN.SSRNMetadataExtractor;
    cbn [extractJournalName].
  all: repeat split.
  all: try (intros tag Htag; inversion Htag; subst tag; intros ->;
            reflexivity).
  all: match goal with
       | |- context [getMetaContent ?d ?s] =>
           destruct (getMetaContent d s); simpl; try discriminate;
           try reflexivity
       end.
Qed.

Lemma journalName_hard_coded_witness :
  extractJournalName
    (createMetadataExtractor neurips (BaseMetadataExtractor blankPage) blankPage)
  = str "NeurIPS".
Proof.
  exact (proj1 (proj2 (@journalName_hard_coded neurips (str "NeurIPS")
                         (BaseMetadataExtractor blankPage) noMetadata
                         blankPage eq_refl))
           (metaName "citation_conference_title") eq_refl eq_refl).
Defined.

(** C3, the claim as stated fails: on a page where no selector finds
    anything, the journal name of the medRxiv extractor is not the empty
    string. *)
Lemma journalName_on_blank_page :
  Forall (lacks blankPage) (selectorsOf medrxiv)
  /\ BaseMetadataExtractor blankPage = noMetadata
  /\ extractJournalName
       (createMetadataExtractor medrxiv (BaseMetadataExtractor blankPage)
          blankPage)
     = str "medRxiv".
Proof.
  split; [repeat constructor|]. split; reflexivity.
Qed.

(** C3, as amended. On a page that holds none of the tags and none of the
    selector targets an extractor looks for, and with the base class
    answering with nothing, every accessor returns the empty string (the
    empty list for tags), except [extractJournalName] of the medRxiv, SSRN
    and NeurIPS extractors, which returns the publisher's literal name.  The
    accessors are total: nothing is thrown. *)
Theorem accessors_on_bare_page (p : publisher) (super : MetadataExtractor)
    (document : Document) :
  Forall (lacks document) (selectorsOf p) ->
  super = noMetadata ->
  let e := createMetadataExtractor p super document in
  extractTitle e = []
  /\ extractAuthors e = []
  /\ extractDescription e = []
  /\ extractPublishedDate e = []
  /\ extractDoi e = []
  /\ extractTags e = []
  /\ extractJournalName e
     = match hardCodedJournal p with Some literal => literal | None => [] end.
Proof.
  intros Hl -> e; subst e.
  destruct p; cbn [selectorsOf] in Hl; members Hl;
    cbn [createMetadataExtractor hardCodedJournal];
    unfold Springer.SpringerMetadataExtractor, IEEE.IEEEMetadataExtractor,
      ACM.ACMMetadataExtractor, ACL.ACLMetadataExtractor,
      NeurIPS.NeurIPSMetadataExtractor, CVF.CVFMetadataExtractor,
      MedRxiv.MedRxivMetadataExtractor, SSRN.SSRNMetadataExtractor;
    cbn [extractTitle extractAuthors extractDescription extractPublishedDate
         extractDoi extractJournalName extractTags noMetadata];
    unfold keywordsOf, citationAuthors, getMetaContent, querySelector;
    absent; repeat split.
Qed.

Lemma accessors_on_bare_page_witness :
  let e := createMetadataExtractor ieee (BaseMetadataExtractor blankPage)
             blankPage in
  extractTitle e = []
  /\ extractAuthors e = []
  /\ extractDescription e = []
  /\ extractPublishedDate e = []
  /\ extractDoi e = []
  /\ extractTags e = []
  /\ extractJournalName e = [].
Proof.
  refine (@accessors_on_bare_page ieee (BaseMetadataExtractor blankPage)
            blankPage _ eq_refl).
  repeat constructor.
Defined.

(** C4, the claim as stated fails: on a page that carries an Open-Graph
    title and a Dublin-Core title and no citation title, the medRxiv title
    is the Open-Graph one, not the Dublin-Core one. *)
Lemma dublin_core_after_open_graph :
  lacks (titlesPage "DC.Title") (metaName "citation_title")
  /\ carries (titlesPage "DC.Title") (metaProperty "og:title")
       (str "Open Graph title")
  /\ carries (titlesPage "DC.Title") (metaName "DC.Title")
       (str "Dublin Core title")
  /\ extractTitle
       (createMetadataExtractor medrxiv
          (BaseMetadataExtractor (titlesPage "DC.Title"))
          (titlesPage "DC.Title"))
     = str "Open Graph title".
Proof.
  split; [reflexivity|].
  split; [do 2 eexists; repeat split; discriminate|].
  split; [do 2 eexists; repeat split; discriminate|].
  reflexivity.
Qed.

(** C4, as amended. The title chains that hold a citation tag, an
    Open-Graph tag and a Dublin-Core tag (medRxiv, ACM, Springer) try the
    citation tag first, the Open-Graph tag second and the Dublin-Core tag
    third: a page that carries the citation title gets it whatever else it
    carries, a page without it that carries the Open-Graph title gets the
    Open-Graph title, and the Dublin-Core title is used when the two others
    are missing. *)
Theorem title_chain_order (p : publisher) (dublinCore : jsstring)
    (super : MetadataExtractor) (document : Document) :
  dublinCoreTitle p = Some dublinCore ->
  (forall value,
      carries document (metaName "citation_title") value ->
      extractTitle (createMetadataExtractor p super document) = value)
  /\ (forall value,
        lacks document (metaName "citation_title") ->
        carries document (metaProperty "og:title") value ->
        extractTitle (createMetadataExtractor p super document) = value)
  /\ (forall value,
        lacks document (metaName "citation_title") ->
        lacks document (metaProperty "og:title") ->
        carries document dublinCore value ->
        extractTitle (createMetadataExtractor p super document) = value).
Proof.
  intros Hp.
  destruct p; simpl in Hp; try discriminate; inversion Hp; subst dublinCore;
    cbn [createMetadataExtractor];
    unfold Springer.SpringerMetadataExtractor, ACM.ACMMetadataExtractor,
      MedRxiv.MedRxivMetadataExtractor;
    cbn [extractTitle].
  all: repeat split; intros value.
  all: repeat match goal with
         | |- lacks _ _ -> _ =>
             let H := fresh in
             intros H; rewrite (getMetaContent_lacks H)
         end.
  all: intros Hcarries; pose proof (carries_nonempty Hcarries);
    rewrite (getMetaContent_carries Hcarries);
    destruct value; [congruence|reflexivity].
Qed.

Lemma title_chain_order_witness :
  extractTitle
    (createMetadataExtractor medrxiv (BaseMetadataExtractor fullPage) fullPage)
  = str "Citation title".
Proof.
  refine (proj1 (@title_chain_order medrxiv (metaName "DC.Title")
                   (BaseMetadataExtractor fullPage) fullPage eq_refl)
            (str "Citation title") _).
  do 2 eexists. repeat split. discriminate.
Defined.

(** C5, the claim as stated fails: the ACM title chain has the Dublin-Core
    tag [dc.Title] of the publisher's vocabulary, and on a page that carries
    it together with the generic [og:title] the title is the generic one. *)
Lemma generic_title_over_dublin_core :
  carries (titlesPage "dc.Title") (metaName "dc.Title")
    (str "Dublin Core title")
  /\ carries (titlesPage "dc.Title") (metaProperty "og:title")
       (str "Open Graph title")
  /\ extractTitle
       (createMetadataExtractor acm
          (BaseMetadataExtractor (titlesPage "dc.Title"))
          (titlesPage "dc.Title"))
     = str "Open Graph title".
Proof.
  split; [do 2 eexists; repeat split; discriminate|].
  split; [do 2 eexists; repeat split; discriminate|].
  reflexivity.
Qed.

Lemma Contents_contents (els : list Element) (cs : list jsstring) :
  Contents els cs -> contents els = cs.
Proof.
  unfold contents.
  induction 1 as [|el c els cs Ha Hc _ IH|el els cs Ha _ IH]; simpl.
  - reflexivity.
  - rewrite Ha, IH. destruct c; [congruence|reflexivity].
  - rewrite IH. destruct Ha as [-> | ->]; reflexivity.
Qed.

(** C5, as amended. For every extractor and every field, a tag of the
    publisher's vocabulary that the chain tries before the generic tag and
    before the base class (every [citation_*], [dc.*] and [prism.*] tag of
    the chains but the Dublin-Core title) wins over them: a page that
    carries it, with no value for the tags the chain tries ahead of it, gets
    its value, whatever generic tag the page carries and whatever the base
    class answers.  The same holds for the keywords of [citation_keywords]
    and the names of [citation_author] ([dc.creator] after it for
    Springer).  The Dublin-Core title of medRxiv, ACM and Springer, which
    the chain tries after [og:title], yields to it. *)
Theorem specific_tags_preferred (p : publisher) (super : MetadataExtractor)
    (document : Document) :
  (forall f before tag after value,
      leadingTags p f = before ++ tag :: after ->
      Forall (fun earlier => getMetaContent document earlier = []) before ->
      carries document tag value ->
      accessor f (createMetadataExtractor p super document) = value)
  /\ (forall value,
        carries document (metaName "citation_keywords") value ->
        extractTags (createMetadataExtractor p super document)
        = splitKeywords value)
  /\ (forall names,
        Contents (querySelectorAll document (metaName "citation_author"))
          names ->
        names <> [] ->
        extractAuthors (createMetadataExtractor p super document)
        = join (str ", ") names)
  /\ (forall names,
        p = springer ->
        Contents (querySelectorAll document (metaName "citation_author")) [] ->
        Contents (querySelectorAll document (metaName "dc.creator")) names ->
        names <> [] ->
        extractAuthors (createMetadataExtractor p super document)
        = join (str ", ") names)
  /\ (forall dublinCore value,
        dublinCoreTitle p = Some dublinCore ->
        getMetaContent document (metaName "citation_title") = [] ->
        carries document (metaProperty "og:title") value ->
        extractTitle (createMetadataExtractor p super document) = value).
Proof.
  split; [|split; [|split; [|split]]].
  - intros f before tag after value Hsplit Hbefore Hc.
    pose proof (carries_nonempty Hc) as Hne.
    destruct p, f; cbn [leadingTags] in Hsplit;
      destruct before as [|b1 [|b2 [|b3 before]]];
      cbn [app] in Hsplit; inversion Hsplit; subst;
      try (destruct before; discriminate);
      members Hbefore;
      cbn [createMetadataExtractor accessor];
      unfold Springer.SpringerMetadataExtractor, IEEE.IEEEMetadataExtractor,
        ACM.ACMMetadataExtractor, ACL.ACLMetadataExtractor,
        NeurIPS.NeurIPSMetadataExtractor, CVF.CVFMetadataExtractor,
        MedRxiv.MedRxivMetadataExtractor, SSRN.SSRNMetadataExtractor;
      cbn [extractTitle extractDescription extractPublishedDate extractDoi
           extractJournalName];
      repeat match goal with
             | H : getMetaContent _ _ = [] |- _ => rewrite H; clear H
             end;
      rewrite (getMetaContent_carries Hc);
      destruct value; try congruence; reflexivity.
  - intros value Hc. pose proof (carries_nonempty Hc) as Hne.
    apply getMetaContent_carries in Hc.
    destruct p; cbn [createMetadataExtractor];
      unfold Springer.SpringerMetadataExtractor, IEEE.IEEEMetadataExtractor,
        ACM.ACMMetadataExtractor, ACL.ACLMetadataExtractor,
        NeurIPS.NeurIPSMetadataExtractor, CVF.CVFMetadataExtractor,
        MedRxiv.MedRxivMetadataExtractor, SSRN.SSRNMetadataExtractor;
      cbn [extractTags]; unfold keywordsOf; rewrite Hc;
      destruct value; try congruence; reflexivity.
  - intros names Hc Hne. apply Contents_contents in Hc.
    destruct p; cbn [createMetadataExtractor];
      unfold Springer.SpringerMetadataExtractor, IEEE.IEEEMetadataExtractor,
        ACM.ACMMetadataExtractor, ACL.ACLMetadataExtractor,
        NeurIPS.NeurIPSMetadataExtractor, CVF.CVFMetadataExtractor,
        MedRxiv.MedRxivMetadataExtractor, SSRN.SSRNMetadataExtractor;
      cbn [extractAuthors]; unfold citationAuthors; rewrite Hc;
      destruct names; try congruence; reflexivity.
  - intros names -> Hc Hd Hne. apply Contents_contents in Hc, Hd.
    cbn [createMetadataExtractor]. unfold Springer.SpringerMetadataExtractor.
    cbn [extractAuthors]. unfold citationAuthors. rewrite Hc, Hd.
    destruct names; [congruence|reflexivity].
  - intros dublinCore value Hp Hcit Hc.
    pose proof (carries_nonempty Hc) as Hne.
    apply getMetaContent_carries in Hc.
    destruct p; simpl in Hp; try discriminate;
      cbn [createMetadataExtractor];
      unfold Springer.SpringerMetadataExtractor, ACM.ACMMetadataExtractor,
        MedRxiv.MedRxivMetadataExtractor;
      cbn [extractTitle]; rewrite Hcit, Hc;
      destruct value; try congruence; reflexivity.
Qed.

Lemma specific_tags_preferred_witness :
  extractDoi
    (createMetadataExtractor medrxiv (BaseMetadataExtractor identifierPage)
       identifierPage)
  = str "10.1101/2021.01.01.000001"
  /\ extractDoi (BaseMetadataExtractor identifierPage)
     = str "generic-identifier".
Proof.
  split; [|reflexivity].
  refine (proj1 (@specific_tags_preferred medrxiv
                   (BaseMetadataExtractor identifierPage) identifierPage)
            doi [metaName "citation_doi"] (metaName "DC.Identifier") []
            (str "10.1101/2021.01.01.000001") eq_refl _ _).
  - repeat constructor.
  - do 2 eexists. repeat split. discriminate.
Defined.

(** ** Tags *)

Lemma split_SplitOn (sep : ascii -> bool) (s : jsstring) :
  SplitOn sep s (split sep s).
Proof.
  induction s as [|c s (seps & Hlen & Hseps & Hpieces & Hweave)]; simpl.
  - exists []. repeat split; repeat constructor.
  - destruct (sep c) eqn:E.
    + exists (c :: seps). simpl. repeat split; auto.
      * rewrite Hweave. reflexivity.
    + destruct (split sep s) as [|piece pieces]; [discriminate|].
      exists seps. inversion Hpieces; subst. repeat split; auto.
      destruct seps; simpl in *; congruence.
Qed.

Lemma trimStart_spec (s : jsstring) :
  exists before,
    s = before ++ trimStart s
    /\ Forall (fun c => space c = true) before
    /\ startsClean (trimStart s).
Proof.
  induction s as [|c s (before & Hs & Hb & Hc)]; simpl.
  - exists []. repeat split; constructor.
  - destruct (space c) eqn:E.
    + exists (c :: before). simpl. rewrite <- Hs. repeat split; auto.
    + exists []. simpl. repeat split; auto.
Qed.

Lemma trimEnd_spec (s : jsstring) :
  exists after,
    s = trimEnd s ++ after
    /\ Forall (fun c => space c = true) after
    /\ startsClean (rev (trimEnd s)).
Proof.
  unfold trimEnd. destruct (trimStart_spec (rev s)) as (b & Hs & Hb & Hc).
  exists (rev b). rewrite rev_involutive. repeat split; auto.
  - rewrite <- rev_app_distr, <- Hs, rev_involutive. reflexivity.
  - apply Forall_rev. exact Hb.
Qed.

Lemma trim_TrimOf (s : jsstring) : TrimOf s (trim s).
Proof.
  unfold trim.
  destruct (trimStart_spec s) as (before & Hs & Hb & Hc).
  destruct (trimEnd_spec (trimStart s)) as (after & Ht & Ha & Hr).
  exists before, after. repeat split; auto.
  - rewrite <- Ht. exact Hs.
  - destruct (trimEnd (trimStart s)) as [|c t] eqn:E; simpl; [exact I|].
    rewrite Ht in Hc. exact Hc.
Qed.




(** * More of the integrations *)

(** ** URLs that are not the publisher's *)

Lemma run_leading (r : regex) :
  forall (A : Type) (s : jsstring) (caps : captures)
         (k : jsstring -> captures -> option A),
    startsWith s (leading r) = false -> run r s caps k = None.
Proof.
  induction r as [l|p|p|p|p|r1 IH1 r2 IH2|i r1 IH1]; intros A s caps k;
    cbn [leading run]; try discriminate.
  - unfold startsWith. destruct (literal l s); [discriminate|reflexivity].
  - intros H. apply IH1. exact H.
  - intros H. apply IH1. exact H.
Qed.

Lemma jsMatch_absent (r : regex) (url : jsstring) :
  indexOf url (leading r) = None -> jsMatch url r = None.
Proof.
  induction url as [|c url IH]; cbn [indexOf jsMatch];
    destruct (startsWith _ (leading r)) eqn:E; try discriminate;
    unfold matchAt; rewrite (@run_leading r _ _ _ _ E); [reflexivity|].
  intros H. apply IH. destruct (indexOf url (leading r)); [discriminate|].
  reflexivity.
Qed.

Lemma forOfPatterns_none (patterns : list regex) (url : jsstring)
    (ret : matchArray -> option jsstring) :
  Forall (fun r => jsMatch url r = None) patterns ->
  forOfPatterns patterns url ret = None.
Proof.
  induction 1 as [|r rest Hr _ IH]; simpl; [reflexivity|].
  rewrite Hr. exact IH.
Qed.

(** X1. A URL that holds none of the literals the patterns of an
    integration begin with (its host and path prefix) has no identifier
    there. *)
Theorem foreign_url_no_identifier (p : publisher) (url : jsstring) :
  Forall (fun r => indexOf url (leading r) = None) (urlPatternsOf p) ->
  extractPaperIdOf p url = None.
Proof.
  intros H.
  assert (Forall (fun r => jsMatch url r = None) (urlPatternsOf p)) as Hn
    by (eapply Forall_impl; [|exact H]; intros r; apply jsMatch_absent).
  destruct p; apply forOfPatterns_none; exact Hn.
Qed.

Lemma foreign_url_no_identifier_witness :
  extractPaperIdOf acm (str "https://arxiv.org/abs/1706.03762") = None.
Proof.
  apply foreign_url_no_identifier. repeat constructor.
Defined.

(** ** Where an identifier comes from *)

Lemma literal_inv (l s rest : jsstring) :
  literal l s = Some rest -> s = l ++ rest.
Proof.
  revert s; induction l as [|a l IH]; intros [|c s]; simpl; try congruence.
  destruct (Ascii.eqb a c) eqn:E; [|discriminate].
  apply Ascii.eqb_eq in E. subst c. intros H. f_equal. auto.
Qed.

Lemma star_split (A : Type) (p : ascii -> bool) (k : jsstring -> option A)
    (s : jsstring) (a : A) :
  star p k s = Some a -> exists u s', s = u ++ s' /\ k s' = Some a.
Proof.
  induction s as [|c s IH]; simpl.
  - intros H. exists [], []. auto.
  - assert (k (c :: s) = Some a ->
            exists u s', c :: s = u ++ s' /\ k s' = Some a) as Hhere
      by (intros H; exists [], (c :: s); auto).
    destruct (p c); [|exact Hhere].
    destruct (star p k s) as [a'|] eqn:E; [|exact Hhere].
    intros H; inversion H; subst a'.
    destruct (IH eq_refl) as (u & s' & -> & Hk).
    exists (c :: u), s'. auto.
Qed.

Lemma occursIn_suffix (v u s : jsstring) :
  occursIn v s -> occursIn v (u ++ s).
Proof.
  intros (before & after & ->). exists (u ++ before), after.
  rewrite <- app_assoc. reflexivity.
Qed.

(** A successful run consumes a front part of the input, no shorter than
    the pattern's least length, and every group it sets holds a part of the
    input that is not empty. *)
Lemma run_parts (r : regex) :
  groupsConsume r = true ->
  forall (A : Type) (s : jsstring) (caps : captures)
         (k : jsstring -> captures -> option A) (a : A),
    run r s caps k = Some a ->
    exists u s' caps',
      s = u ++ s' /\ minLength r <= List.length u
      /\ k s' caps' = Some a
      /\ forall j v, In (j, v) caps' ->
                     In (j, v) caps \/ (v <> [] /\ occursIn v s).
Proof.
  induction r as [l|p|p|p|p|r1 IH1 r2 IH2|i r1 IH1]; intros Hg A s caps k a;
    cbn [run minLength].
  - destruct (literal l s) as [s'|] eqn:E; [|discriminate].
    apply literal_inv in E. intros H. exists l, s', caps. auto.
  - destruct s as [|c s]; [discriminate|]. destruct (p c); [|discriminate].
    intros H. exists [c], s, caps. simpl. auto.
  - intros H. apply star_split in H. destruct H as (u & s' & -> & H).
    exists u, s', caps. repeat split; auto. lia.
  - destruct s as [|c s]; [discriminate|]. destruct (p c); [|discriminate].
    intros H. apply star_split in H. destruct H as (u & s' & -> & H).
    exists (c :: u), s', caps. simpl. repeat split; auto. lia.
  - assert (forall t, k t caps = Some a ->
              exists u s' caps',
                t = u ++ s' /\ 0 <= List.length u /\ k s' caps' = Some a
                /\ forall j v, In (j, v) caps' ->
                               In (j, v) caps \/ (v <> [] /\ occursIn v t))
      as Hskip
      by (intros t H; exists [], t, caps; simpl; repeat split; auto; lia).
    destruct s as [|c s]; [apply Hskip|]. destruct (p c); [|apply Hskip].
    destruct (k s caps) as [a'|] eqn:E; [|apply Hskip].
    intros H; inversion H; subst a'.
    exists [c], s, caps. simpl. repeat split; auto.
  - cbn [groupsConsume] in Hg. apply andb_true_iff in Hg.
    destruct Hg as [Hg1 Hg2]. intros H.
    apply (IH1 Hg1) in H. destruct H as (u1 & s1 & caps1 & -> & Hl1 & H & Hc1).
    apply (IH2 Hg2) in H. destruct H as (u2 & s2 & caps2 & -> & Hl2 & H & Hc2).
    exists (u1 ++ u2), s2, caps2. rewrite <- app_assoc, length_app.
    repeat split; auto; [lia|].
    intros j v Hin. destruct (Hc2 j v Hin) as [Hin1|[Hne Hocc]].
    + exact (Hc1 j v Hin1).
    + right. split; [exact Hne|]. apply occursIn_suffix. exact Hocc.
  - cbn [groupsConsume] in Hg. apply andb_true_iff in Hg.
    destruct Hg as [Hmin Hg1]. apply Nat.leb_le in Hmin. intros H.
    apply (IH1 Hg1) in H. destruct H as (u & s' & caps1 & -> & Hl & H & Hc).
    rewrite consumed_app in H.
    exists u, s', ((i, u) :: caps1). repeat split; auto.
    intros j v [Heq|Hin]; [|exact (Hc j v Hin)].
    inversion Heq; subst. right. split.
    + destruct v; simpl in *; [lia|discriminate].
    + exists [], s'. reflexivity.
Qed.

Lemma lookup_In (j : nat) (caps : captures) (v : jsstring) :
  lookup j caps = Some v -> In (j, v) caps.
Proof.
  induction caps as [|[i w] caps IH]; simpl; [discriminate|].
  destruct (j =? i) eqn:E.
  - apply Nat.eqb_eq in E. intros H; inversion H; subst. auto.
  - auto.
Qed.

Lemma jsMatch_inv_at (r : regex) (url : jsstring) (m : matchArray) :
  jsMatch url r = Some m ->
  exists pre s rest caps,
    url = pre ++ s /\ matchAt r s = Some (rest, caps)
    /\ m = mkArray r s rest caps.
Proof.
  induction url as [|c url IH]; simpl.
  - destruct (matchAt r []) as [[rest caps]|] eqn:E; [|discriminate].
    intros H; inversion H. exists [], [], rest, caps. auto.
  - destruct (matchAt r (c :: url)) as [[rest caps]|] eqn:E.
    + intros H; inversion H. exists [], (c :: url), rest, caps. auto.
    + intros H. destruct (IH H) as (pre & s & rest & caps & -> & Hm & ->).
      exists (c :: pre), s, rest, caps. auto.
Qed.

Lemma nth_map_seq (f : nat -> option jsstring) (n : nat) :
  forall start i v,
    nth i (map f (seq start n)) None = Some v -> f (start + i) = Some v.
Proof.
  induction n as [|n IH]; intros start [|i] v; simpl; try discriminate.
  - rewrite Nat.add_0_r. auto.
  - intros H. apply IH in H. rewrite <- H. f_equal. lia.
Qed.

(** Every group of a match array holds a part of the URL that is not
    empty. *)
Lemma match_groups_from_url (r : regex) (url : jsstring) (m : matchArray) :
  groupsConsume r = true -> jsMatch url r = Some m ->
  forall i v, at_ m (S i) = Some v -> v <> [] /\ occursIn v url.
Proof.
  intros Hg H i v Hat. apply jsMatch_inv_at in H.
  destruct H as (pre & s & rest & caps & -> & Hm & ->).
  unfold at_, mkArray in Hat. cbn [nth] in Hat.
  apply nth_map_seq in Hat. apply lookup_In in Hat.
  unfold matchAt in Hm. apply (run_parts r Hg) in Hm.
  destruct Hm as (u & s' & caps' & _ & _ & Hk & Hc).
  inversion Hk; subst. destruct (Hc _ _ Hat) as [[]|[Hne Hocc]].
  split; [exact Hne|]. apply occursIn_suffix. exact Hocc.
Qed.

Lemma forOfPatterns_inv (patterns : list regex) (url : jsstring)
    (ret : matchArray -> option jsstring) (id : jsstring) :
  forOfPatterns patterns url ret = Some id ->
  exists r m, In r patterns /\ jsMatch url r = Some m /\ ret m = Some id.
Proof.
  induction patterns as [|r rest IH]; simpl; [discriminate|].
  destruct (jsMatch url r) as [m|] eqn:E.
  - intros H. exists r, m. auto.
  - intros H. destruct (IH H) as (r' & m' & Hin & Hm & Hret).
    exists r', m'. auto.
Qed.

(** X2. An identifier is made of text taken from the URL: it is one part
    of the URL, or two parts for NeurIPS and three for CVF joined with
    hyphens, and no part is empty. *)
Theorem identifier_from_url (p : publisher) (url id : jsstring) :
  extractPaperIdOf p url = Some id ->
  exists parts,
    List.length parts
    = match p with neurips => 2 | cvf => 3 | _ => 1 end
    /\ id = join (str "-") parts
    /\ Forall (fun v => v <> [] /\ occursIn v url) parts.
Proof.
  intros H.
  assert (exists r m, In r (urlPatternsOf p) /\ jsMatch url r = Some m
                      /\ match p with
                         | neurips =>
                             Some (tpl (at_ m 1) ++ str "-" ++ tpl (at_ m 2))
                         | cvf =>
                             Some (tpl (at_ m 1) ++ str "-" ++ tpl (at_ m 2)
                                   ++ str "-" ++ tpl (at_ m 3))
                         | _ => at_ m 1
                         end = Some id)
    as (r & m & Hin & Hm & Hret)
    by (destruct p; apply forOfPatterns_inv in H; exact H).
  assert (groupsConsume r = true) as Hg
    by (destruct p; each_pattern Hin; subst r; reflexivity).
  pose proof (@match_groups_from_url r url m Hg Hm) as Hparts.
  destruct p;
    try (exists [id]; split; [reflexivity|]; split; [reflexivity|];
         constructor; [exact (Hparts 0 id Hret)|constructor]).
  - assert (groupsOf r = [1; 2]) as Hgr
        by (each_pattern Hin; subst r; reflexivity).
    destruct (@match_two_groups r url m Hgr Hm) as (w & g1 & g2 & ->).
    cbn [at_ nth tpl] in Hret. inversion Hret; subst id.
    exists [g1; g2]. split; [reflexivity|]. split; [reflexivity|].
    repeat constructor;
      [apply (Hparts 0)|apply (Hparts 0)|apply (Hparts 1)|apply (Hparts 1)];
      reflexivity.
  - assert (groupsOf r = [1; 2; 3]) as Hgr
        by (each_pattern Hin; subst r; reflexivity).
    destruct (@match_three_groups r url m Hgr Hm) as (w & g1 & g2 & g3 & ->).
    cbn [at_ nth tpl] in Hret. inversion Hret; subst id.
    exists [g1; g2; g3]. split; [reflexivity|]. split; [reflexivity|].
    repeat constructor;
      [apply (Hparts 0)|apply (Hparts 0)|apply (Hparts 1)|apply (Hparts 1)
      |apply (Hparts 2)|apply (Hparts 2)];
      reflexivity.
Qed.

Lemma identifier_from_url_witness :
  exists parts,
    List.length parts = 2
    /\ str "2020-abc123def" = join (str "-") parts
    /\ Forall
         (fun v =>
            v <> []
            /\ occursIn v
                 (str "https://papers.nips.cc/paper/2020/hash/abc123def-Abstract.html"))
         parts.
Proof.
  exact (@identifier_from_url neurips
           (str "https://papers.nips.cc/paper/2020/hash/abc123def-Abstract.html")
           (str "2020-abc123def") eq_refl).
Defined.

(** ** The URL forms of each publisher *)

Lemma run_Opt_skipped (A : Type) (p : ascii -> bool) (s : jsstring)
    (caps : captures) (k : jsstring -> captures -> option A) :
  stops p s -> run (Opt p) s caps k = k s caps.
Proof.
  destruct s as [|c s]; simpl; [reflexivity|]. intros ->. reflexivity.
Qed.

Lemma run_Star_stopped (A : Type) (p : ascii -> bool) (s : jsstring)
    (caps : captures) (k : jsstring -> captures -> option A) :
  stops p s -> run (Star p) s caps k = k s caps.
Proof.
  destruct s as [|c s]; simpl; [reflexivity|]. intros ->. reflexivity.
Qed.

Lemma skipn_past (pre t : jsstring) :
  skipn (S (List.length pre)) (pre ++ t) = tl t.
Proof.
  induction pre as [|c pre IH]; [destruct t; reflexivity|exact IH].
Qed.

(** A pattern that begins with a literal, fails where the literal first
    occurs and finds the literal nowhere after, does not match. *)
Lemma jsMatch_fails_here (l : jsstring) (r : regex) (pre t : jsstring) :
  indexOf (pre ++ t) l = Some (List.length pre) ->
  matchAt (Lit l ;; r) t = None ->
  indexOf (skipn (S (List.length pre)) (pre ++ t)) l = None ->
  jsMatch (pre ++ t) (Lit l ;; r) = None.
Proof.
  intros Hfirst Hfail Hlater. rewrite jsMatch_skip by exact Hfirst.
  rewrite skipn_past in Hlater.
  destruct t as [|c t]; cbn [jsMatch]; rewrite Hfail; [reflexivity|].
  apply jsMatch_absent. exact Hlater.
Qed.

(** The DOI patterns: a literal, then the group [10.<digits>/<run>]. *)
Lemma doi_matchAt (l : jsstring) (cls : ascii -> bool)
    (registrant suffix rest : jsstring) :
  registrant <> [] -> Forall (fun d => digit d = true) registrant ->
  suffix <> [] -> Forall (fun c => cls c = true) suffix ->
  stops cls rest ->
  matchAt
    (Lit l ;; Group 1 (Lit (str "10.") ;; Plus digit ;; Lit (str "/")
                       ;; Plus cls))
    (l ++ (str "10." ++ registrant ++ str "/" ++ suffix) ++ rest)
  = Some (rest, [(1, str "10." ++ registrant ++ str "/" ++ suffix)]).
Proof.
  intros Hr Hrd Hs Hsc Hstop.
  set (id := str "10." ++ registrant ++ str "/" ++ suffix).
  unfold matchAt. rewrite run_Cat, run_Lit, run_Group.
  assert (id ++ rest = str "10." ++ registrant ++ str "/" ++ suffix ++ rest)
    as Hassoc by (unfold id; repeat rewrite <- app_assoc; reflexivity).
  rewrite Hassoc at 1.
  rewrite run_Cat, run_Lit, run_Cat.
  apply run_Plus; [assumption|assumption|exact eq_refl|].
  rewrite run_Cat, run_Lit.
  apply run_Plus; [assumption|assumption|exact Hstop|].
  cbv beta. rewrite consumed_app. reflexivity.
Qed.


Lemma pathChar_class (c : ascii) :
  pathChar c -> noneOfNorSpace (str "?") c = true.
Proof.
  intros (Hq & Hs). unfold noneOfNorSpace, oneOf. cbn [existsb str].
  change (str "?") with ["?"%char]. cbn [existsb].
  rewrite Hs. apply Ascii.eqb_neq in Hq. rewrite Hq. reflexivity.
Qed.

Lemma queryOrEnd_stops (l : jsstring) (rest : jsstring) :
  queryOrEnd rest -> In "?"%char l -> stops (noneOfNorSpace l) rest.
Proof.
  destruct rest as [|c rest]; simpl; [auto|].
  intros [->|Hs] Hin; unfold noneOfNorSpace.
  - replace (oneOf l "?"%char) with true; [reflexivity|].
    symmetry. apply existsb_exists. exists "?"%char. auto.
  - rewrite Hs, orb_true_r. reflexivity.
Qed.

(** X3. A Springer article or chapter URL yields the whole DOI that
    follows [link.springer.com/article/] (or [.../chapter/]), up to the end
    of the URL, a query string or white space. *)
Theorem springer_doi_without_query (kind pre registrant suffix rest : jsstring) :
  let doi := str "10." ++ registrant ++ str "/" ++ suffix in
  let host := str "link.springer.com/" ++ kind ++ str "/" in
  let url := pre ++ host ++ doi ++ rest in
  kind = str "article" \/ kind = str "chapter" ->
  registrant <> [] -> Forall (fun d => digit d = true) registrant ->
  suffix <> [] -> Forall pathChar suffix -> queryOrEnd rest ->
  indexOf url host = Some (List.length pre) ->
  indexOf url (str "link.springer.com/article/") = None
  \/ kind = str "article" ->
  Springer.extractPaperId url = Some doi.
Proof.
  intros doi host url Hkind Hr Hrd Hs Hsc Hrest Hfirst Hother.
  assert (matchAt
            (Lit host ;; Group 1 (Lit (str "10.") ;; Plus digit
                                  ;; Lit (str "/")
                                  ;; Plus (noneOfNorSpace (str "?"))))
            (host ++ doi ++ rest) = Some (rest, [(1, doi)])) as Hm.
  { apply doi_matchAt; auto.
    - eapply Forall_impl; [|exact Hsc]. apply pathChar_class.
    - apply queryOrEnd_stops; [exact Hrest|left; reflexivity]. }
  unfold Springer.extractPaperId, Springer.urlPatterns. cbn [forOfPatterns].
  destruct Hkind as [Hk|Hk].
  - subst kind. unfold url.
    rewrite jsMatch_skip by exact Hfirst.
    change (Lit host) with (Lit (str "link.springer.com/article/")) in Hm.
    rewrite (@jsMatch_here _ _ _ _ Hm). reflexivity.
  - destruct Hother as [Habs|Hart]; [|subst kind; discriminate Hart].
    match goal with
    | |- context [jsMatch url ?r] => rewrite (@jsMatch_absent r url Habs)
    end.
    subst kind. unfold url.
    rewrite jsMatch_skip by exact Hfirst.
    change (Lit host) with (Lit (str "link.springer.com/chapter/")) in Hm.
    rewrite (@jsMatch_here _ _ _ _ Hm). reflexivity.
Qed.

Lemma springer_doi_without_query_witness :
  Springer.extractPaperId
    (str "https://link.springer.com/chapter/10.1007/978-3-030-58452-8_13?utm=1")
  = Some (str "10.1007/978-3-030-58452-8_13").
Proof.
  refine (@springer_doi_without_query (str "chapter") (str "https://")
            (str "1007") (str "978-3-030-58452-8_13") (str "?utm=1")
            _ _ _ _ _ _ _ _).
  - right; reflexivity.
  - discriminate.
  - repeat constructor.
  - discriminate.
  - repeat (constructor; [split; [discriminate|reflexivity]|]). constructor.
  - left; reflexivity.
  - reflexivity.
  - left; reflexivity.
Defined.






Lemma queryOrEnd_stops_class (p : ascii -> bool) (rest : jsstring) :
  queryOrEnd rest -> p "?"%char = false ->
  (forall c, space c = true -> p c = false) ->
  stops p rest.
Proof.
  destruct rest as [|c rest]; simpl; [auto|].
  intros [->|Hs] Hq Hsp; auto.
Qed.

Lemma space_not_digit (c : ascii) : space c = true -> digit c = false.
Proof.
  unfold space, digit, between. intros H.
  apply orb_true_iff in H. destruct H as [H|H];
    [apply orb_true_iff in H; destruct H as [H|H]|].
  - apply andb_true_iff in H. destruct H as [_ H]. apply Nat.leb_le in H.
    apply andb_false_iff. left. apply Nat.leb_gt. lia.
  - apply Nat.eqb_eq in H. rewrite H. reflexivity.
  - apply Nat.eqb_eq in H. rewrite H. reflexivity.
Qed.

Lemma space_not_v (c : ascii) : space c = true -> oneOf (str "v") c = false.
Proof.
  intros H. unfold oneOf. change (str "v") with ["v"%char]. cbn [existsb].
  destruct (Ascii.eqb_spec c "v"%char) as [->|]; [discriminate H|reflexivity].
Qed.

(** X6. A medRxiv content URL whose DOI is followed by nothing, by a query
    string or by white space (no version marker) yields the DOI whole. *)
Theorem medrxiv_doi_without_version (pre registrant suffix rest : jsstring) :
  let doi := str "10." ++ registrant ++ str "/" ++ suffix in
  let url := pre ++ str "medrxiv.org/content/" ++ doi ++ rest in
  registrant <> [] -> Forall (fun c => digit c = true) registrant ->
  suffix <> [] -> Forall plainChar suffix -> queryOrEnd rest ->
  indexOf url (str "medrxiv.org/content/") = Some (List.length pre) ->
  MedRxiv.extractPaperId url = Some doi.
Proof.
  intros doi url Hr Hrd Hs Hsc Hrest Hfirst.
  assert (matchAt
            (Lit (str "medrxiv.org/content/")
             ;; Group 1 (Lit (str "10.") ;; Plus digit ;; Lit (str "/")
                         ;; Plus (noneOfNorSpace (str "v?")))
             ;; Opt (oneOf (str "v")) ;; Star digit)
            (str "medrxiv.org/content/" ++ doi ++ rest)
          = Some (rest, [(1, doi)])) as Hm.
  { unfold matchAt. rewrite run_Cat, run_Lit, run_Cat, run_Group.
    assert (doi ++ rest
            = str "10." ++ registrant ++ str "/" ++ suffix ++ rest)
      as Hassoc by (unfold doi; repeat rewrite <- app_assoc; reflexivity).
    rewrite Hassoc at 1.
    rewrite run_Cat, run_Lit, run_Cat.
    apply run_Plus; [assumption|assumption|exact eq_refl|].
    rewrite run_Cat, run_Lit.
    apply run_Plus; [assumption| | |].
    - eapply Forall_impl; [|exact Hsc]. apply plainChar_class.
    - apply queryOrEnd_stops; [exact Hrest|right; left; reflexivity].
    - cbv beta. rewrite consumed_app, run_Cat.
      rewrite run_Opt_skipped, run_Star_stopped; [reflexivity| |].
      + apply queryOrEnd_stops_class;
          [exact Hrest|reflexivity|apply space_not_digit].
      + apply queryOrEnd_stops_class;
          [exact Hrest|reflexivity|apply space_not_v]. }
  unfold MedRxiv.extractPaperId, MedRxiv.urlPatterns. cbn [forOfPatterns].
  unfold url. rewrite jsMatch_skip by exact Hfirst.
  rewrite (@jsMatch_here _ _ _ _ Hm). reflexivity.
Qed.

Lemma medrxiv_doi_without_version_witness :
  MedRxiv.extractPaperId
    (str "https://www.medrxiv.org/content/10.1101/2021.01.01.000001?versioned=true")
  = Some (str "10.1101/2021.01.01.000001").
Proof.
  refine (@medrxiv_doi_without_version (str "https://www.") (str "1101")
            (str "2021.01.01.000001") (str "?versioned=true") _ _ _ _ _ _).
  - discriminate.
  - repeat constructor.
  - discriminate.
  - repeat (constructor;
            [split; [discriminate|split; [discriminate|reflexivity]]|]).
    constructor.
  - left; reflexivity.
  - reflexivity.
Defined.

(** A run fails when what follows accepts none of its cuts. *)
Lemma star_none (A : Type) (p : ascii -> bool) (k : jsstring -> option A)
    (xs rest : jsstring) :
  Forall (fun c => p c = true) xs -> stops p rest ->
  (forall t, Forall (fun c => p c = true) t -> k (t ++ rest) = None) ->
  star p k (xs ++ rest) = None.
Proof.
  intros Hxs Hstop Hk. induction Hxs as [|c xs Hc Hxs IH]; simpl.
  - destruct rest as [|c rest]; simpl; [exact (Hk [] (Forall_nil _))|].
    rewrite Hstop. exact (Hk [] (Forall_nil _)).
  - rewrite Hc, IH. exact (Hk (c :: xs) (Forall_cons _ Hc Hxs)).
Qed.

Lemma literal_mismatch (l t rest : jsstring) :
  literal l rest = None ->
  match l with c :: _ => digit c = false | [] => False end ->
  Forall (fun d => digit d = true) t ->
  literal l (t ++ rest) = None.
Proof.
  intros Hrest Hl Ht. destruct Ht as [|d t Hd _]; [exact Hrest|].
  destruct l as [|c l]; [destruct Hl|]. simpl.
  destruct (Ascii.eqb_spec c d) as [->|]; [congruence|reflexivity].
Qed.

(** The NeurIPS patterns: a literal, the year, a middle part, the hash. *)
Lemma year_hash_matchAt (l mid year hash rest : jsstring) :
  year <> [] -> Forall (fun d => digit d = true) year ->
  hash <> [] -> Forall (fun c => hexlow c = true) hash ->
  stops digit (mid ++ hash ++ rest) -> stops hexlow rest ->
  matchAt (Lit l ;; Group 1 (Plus digit) ;; Lit mid ;; Group 2 (Plus hexlow))
    (l ++ year ++ mid ++ hash ++ rest)
  = Some (rest, [(2, hash); (1, year)]).
Proof.
  intros Hy Hyd Hh Hhd Hmid Hstop. unfold matchAt.
  rewrite run_Cat, run_Lit, run_Cat, run_Group.
  apply run_Plus; [assumption|assumption|exact Hmid|].
  cbv beta. rewrite consumed_app, run_Cat, run_Lit, run_Group.
  apply run_Plus; [assumption|assumption|exact Hstop|].
  cbv beta. rewrite consumed_app. reflexivity.
Qed.

(** The same pattern fails on a URL that has another middle part. *)
Lemma year_hash_fails (l mid year other : jsstring) :
  year <> [] -> Forall (fun d => digit d = true) year ->
  stops digit other -> literal mid other = None ->
  match mid with c :: _ => digit c = false | [] => False end ->
  matchAt (Lit l ;; Group 1 (Plus digit) ;; Lit mid ;; Group 2 (Plus hexlow))
    (l ++ year ++ other)
  = None.
Proof.
  intros Hy Hyd Hstop Hlit Hmid. unfold matchAt.
  rewrite run_Cat, run_Lit, run_Cat, run_Group.
  destruct Hyd as [|d year Hd Hyd]; [congruence|].
  cbn [run app]. rewrite Hd.
  apply star_none; [exact Hyd|exact Hstop|].
  intros t Ht. cbn [run].
  rewrite (@literal_mismatch mid t other Hlit Hmid Ht). reflexivity.
Qed.

Ltac absent_pattern H :=
  match goal with
  | |- context [jsMatch ?u ?r] => rewrite (@jsMatch_absent r u H)
  end.

(** X7. The abstract page and the PDF of a NeurIPS paper on
    [proceedings.neurips.cc] ([/hash/] and [/file/] URLs) yield the same
    identifier, the year and the hash joined with a hyphen. *)
Theorem neurips_abstract_and_pdf (pre year hash restA restP : jsstring) :
  let host := str "proceedings.neurips.cc/paper/" in
  let abstract := pre ++ host ++ year ++ str "/hash/" ++ hash ++ restA in
  let pdf := pre ++ host ++ year ++ str "/file/" ++ hash ++ restP in
  year <> [] -> Forall (fun d => digit d = true) year ->
  hash <> [] -> Forall (fun c => hexlow c = true) hash ->
  stops hexlow restA -> stops hexlow restP ->
  (indexOf abstract (str "papers.nips.cc/paper/") = None ->
   indexOf abstract host = Some (List.length pre) ->
   NeurIPS.extractPaperId abstract = Some (year ++ str "-" ++ hash))
  /\ (indexOf pdf (str "papers.nips.cc/paper/") = None ->
      indexOf pdf host = Some (List.length pre) ->
      indexOf (skipn (S (List.length pre)) pdf) host = None ->
      NeurIPS.extractPaperId pdf = Some (year ++ str "-" ++ hash)).
Proof.
  intros host abstract pdf Hy Hyd Hh Hhd HstopA HstopP. subst host.
  unfold NeurIPS.extractPaperId, NeurIPS.urlPatterns. cbn [forOfPatterns].
  split.
  - intros Hold Hfirst. absent_pattern Hold. absent_pattern Hold.
    unfold abstract. rewrite jsMatch_skip by exact Hfirst.
    rewrite (@jsMatch_here _ _ _ _
               (@year_hash_matchAt _ (str "/hash/") year hash restA
                  Hy Hyd Hh Hhd eq_refl HstopA)).
    reflexivity.
  - intros Hold Hfirst Hlater. absent_pattern Hold. absent_pattern Hold.
    unfold pdf at 1.
    rewrite jsMatch_fails_here;
      [|exact Hfirst
       |apply year_hash_fails; auto; reflexivity
       |exact Hlater].
    unfold pdf. rewrite jsMatch_skip by exact Hfirst.
    rewrite (@jsMatch_here _ _ _ _
               (@year_hash_matchAt _ (str "/file/") year hash restP
                  Hy Hyd Hh Hhd eq_refl HstopP)).
    reflexivity.
Qed.

Lemma neurips_abstract_and_pdf_witness :
  NeurIPS.extractPaperId
    (str "https://proceedings.neurips.cc/paper/2017/hash/3f5ee243547dee91fbd053c1c4a845aa-Abstract.html")
  = Some (str "2017-3f5ee243547dee91fbd053c1c4a845aa")
  /\ NeurIPS.extractPaperId
       (str "https://proceedings.neurips.cc/paper/2017/file/3f5ee243547dee91fbd053c1c4a845aa-Paper.pdf")
     = Some (str "2017-3f5ee243547dee91fbd053c1c4a845aa").
Proof.
  pose proof (@neurips_abstract_and_pdf (str "https://") (str "2017")
                (str "3f5ee243547dee91fbd053c1c4a845aa")
                (str "-Abstract.html") (str "-Paper.pdf")) as H.
  destruct H as [HA HP];
    [discriminate|repeat constructor|discriminate|repeat constructor
    |reflexivity|reflexivity|].
  split; [apply HA|apply HP]; reflexivity.
Defined.

(** X8. An ACM URL of the form [dl.acm.org/doi/abs/<prefix>/<digits>]
    yields [<prefix>/<digits>]: the first pattern finds its literal there
    and fails on [abs], and the second pattern reads the identifier. *)
Theorem acm_abs_form (pre registrant number rest : jsstring) :
  let id := str "10." ++ registrant ++ str "/" ++ number in
  let url := pre ++ str "dl.acm.org/doi/abs/" ++ id ++ rest in
  registrant <> [] -> Forall (fun d => digit d = true) registrant ->
  number <> [] -> Forall (fun d => digit d = true) number ->
  stops digit rest ->
  indexOf url (str "dl.acm.org/doi/abs/") = Some (List.length pre) ->
  indexOf url (str "dl.acm.org/doi/") = Some (List.length pre) ->
  indexOf (skipn (S (List.length pre)) url) (str "dl.acm.org/doi/") = None ->
  ACM.extractPaperId url = Some id.
Proof.
  intros id url Hr Hrd Hn Hnd Hstop Habs Hfirst Hlater.
  pose proof (@doi_matchAt (str "dl.acm.org/doi/abs/") digit registrant
                number rest Hr Hrd Hn Hnd Hstop) as Hm.
  fold id in Hm.
  unfold ACM.extractPaperId, ACM.urlPatterns. cbn [forOfPatterns].
  unfold url at 1.
  rewrite jsMatch_fails_here; [|exact Hfirst|reflexivity|exact Hlater].
  unfold url. rewrite jsMatch_skip by exact Habs.
  rewrite (@jsMatch_here _ _ _ _ Hm). reflexivity.
Qed.

Lemma acm_abs_form_witness :
  ACM.extractPaperId (str "https://dl.acm.org/doi/abs/10.1145/3292500")
  = Some (str "10.1145/3292500").
Proof.
  refine (@acm_abs_form (str "https://") (str "1145") (str "3292500") []
            _ _ _ _ _ _ _ _).
  - discriminate.
  - repeat constructor.
  - discriminate.
  - repeat constructor.
  - exact I.
  - reflexivity.
  - reflexivity.
  - reflexivity.
Defined.

(** X9. An ACL Anthology URL is read only when a dot follows the start of
    the identifier: with no dot after [aclanthology.org/], as in the
    identifiers of the form [P19-1001], there is no identifier. *)
Theorem acl_needs_dot (pre rest : jsstring) :
  let url := pre ++ str "aclanthology.org/" ++ rest in
  ~ In "."%char rest ->
  indexOf url (str "aclanthology.org/") = Some (List.length pre) ->
  indexOf (skipn (S (List.length pre)) url) (str "aclanthology.org/") = None ->
  indexOf url (str "aclweb.org/anthology/") = None ->
  ACL.extractPaperId url = None.
Proof.
  intros url Hdot Hfirst Hlater Hweb.
  unfold ACL.extractPaperId, ACL.urlPatterns. cbn [forOfPatterns].
  unfold url at 1.
  rewrite jsMatch_fails_here; [|exact Hfirst| |exact Hlater].
  - fold url. absent_pattern Hweb. reflexivity.
  - unfold matchAt. rewrite run_Cat, run_Lit, run_Group, run_Cat.
    match goal with |- ?lhs = None => destruct lhs as [a|] eqn:E end;
      [exfalso|reflexivity].
    apply (run_parts (Plus upperOrDigit) eq_refl) in E.
    destruct E as (u & s' & caps' & Hrest & _ & E & _).
    cbn [run] in E. change (str ".") with ["."%char] in E.
    destruct s' as [|c s']; cbn [literal] in E; [discriminate E|].
    destruct (Ascii.eqb_spec "."%char c) as [<-|]; [|discriminate E].
    apply Hdot. rewrite Hrest. apply in_or_app. right. left. reflexivity.
Qed.

Lemma acl_needs_dot_witness :
  ACL.extractPaperId (str "https://aclanthology.org/P19-1001") = None.
Proof.
  refine (@acl_needs_dot (str "https://") (str "P19-1001") _ _ _ _).
  - intros H. repeat (destruct H as [H|H]; [discriminate H|]). exact H.
  - reflexivity.
  - reflexivity.
  - reflexivity.
Defined.

(** X10. A medRxiv URL of the early form,
    [medrxiv.org/content/early/<y>/<m>/<d>/<number>], yields the number at
    its end: the DOI pattern finds its literal there and fails on [early],
    and the second pattern reads the number. *)
Theorem medrxiv_early_number (pre year month day number rest : jsstring) :
  let url := pre ++ str "medrxiv.org/content/early/" ++ year ++ str "/"
             ++ month ++ str "/" ++ day ++ str "/" ++ number ++ rest in
  year <> [] -> Forall (fun d => digit d = true) year ->
  month <> [] -> Forall (fun d => digit d = true) month ->
  day <> [] -> Forall (fun d => digit d = true) day ->
  number <> [] -> Forall (fun d => digit d = true) number ->
  stops digit rest ->
  indexOf url (str "medrxiv.org/content/early/") = Some (List.length pre) ->
  indexOf url (str "medrxiv.org/content/") = Some (List.length pre) ->
  indexOf (skipn (S (List.length pre)) url) (str "medrxiv.org/content/")
  = None ->
  MedRxiv.extractPaperId url = Some number.
Proof.
  intros url Hy Hyd Hm Hmd Hd Hdd Hn Hnd Hstop Hearly Hfirst Hlater.
  unfold MedRxiv.extractPaperId, MedRxiv.urlPatterns. cbn [forOfPatterns].
  unfold url at 1.
  rewrite jsMatch_fails_here; [|exact Hfirst|reflexivity|exact Hlater].
  unfold url. rewrite jsMatch_skip by exact Hearly.
  match goal with
  | |- context [jsMatch ?t ?r] =>
      assert (matchAt r t = Some (rest, [(1, number)])) as Hhere
  end.
  { unfold matchAt. rewrite run_Cat, run_Lit, run_Cat.
    apply run_Plus; [assumption|assumption|exact eq_refl|].
    rewrite run_Cat, run_Lit, run_Cat.
    apply run_Plus; [assumption|assumption|exact eq_refl|].
    rewrite run_Cat, run_Lit, run_Cat.
    apply run_Plus; [assumption|assumption|exact eq_refl|].
    rewrite run_Cat, run_Lit, run_Group.
    apply run_Plus; [assumption|assumption|exact Hstop|].
    cbv beta. rewrite consumed_app. reflexivity. }
  rewrite (@jsMatch_here _ _ _ _ Hhere). reflexivity.
Qed.

Lemma medrxiv_early_number_witness :
  MedRxiv.extractPaperId
    (str "https://www.medrxiv.org/content/early/2020/01/02/19001234.full.pdf")
  = Some (str "19001234").
Proof.
  refine (@medrxiv_early_number (str "https://www.") (str "2020") (str "01")
            (str "02") (str "19001234") (str ".full.pdf")
            _ _ _ _ _ _ _ _ _ _ _ _);
    try discriminate; try (repeat constructor; fail); reflexivity.
Defined.











(** ** Fallbacks of the extractors *)

Ltac extractors :=
  unfold Springer.SpringerMetadataExtractor, IEEE.IEEEMetadataExtractor,
    ACM.ACMMetadataExtractor, ACL.ACLMetadataExtractor,
    NeurIPS.NeurIPSMetadataExtractor, CVF.CVFMetadataExtractor,
    MedRxiv.MedRxivMetadataExtractor, SSRN.SSRNMetadataExtractor;
  cbn [extractTitle extractAuthors extractDescription extractPublishedDate
       extractDoi extractJournalName extractTags].

(** X12. On a page that holds none of the tags and none of the selector
    targets an extractor looks for, every accessor hands back what the base
    class answers, except [extractJournalName] of the medRxiv, SSRN and
    NeurIPS extractors, which answers with the publisher's literal name. *)
Theorem defers_to_base (p : publisher) (super : MetadataExtractor)
    (document : Document) :
  Forall (lacks document) (selectorsOf p) ->
  let e := createMetadataExtractor p super document in
  extractTitle e = extractTitle super
  /\ extractAuthors e = extractAuthors super
  /\ extractDescription e = extractDescription super
  /\ extractPublishedDate e = extractPublishedDate super
  /\ extractDoi e = extractDoi super
  /\ extractTags e = extractTags super
  /\ extractJournalName e
     = match hardCodedJournal p with
       | Some literal => literal
       | None => extractJournalName super
       end.
Proof.
  intros Hl e; subst e.
  destruct p; cbn [selectorsOf] in Hl; members Hl;
    cbn [createMetadataExtractor hardCodedJournal]; extractors;
    unfold keywordsOf, citationAuthors, getMetaContent, querySelector;
    absent; repeat split.
Qed.

Lemma defers_to_base_witness :
  let e := createMetadataExtractor acl (BaseMetadataExtractor genericPage)
             genericPage in
  extractTitle e = []
  /\ extractAuthors e = str "Ada Lovelace"
  /\ extractDescription e = []
  /\ extractPublishedDate e = str "1843-09-01"
  /\ extractDoi e = []
  /\ extractTags e = []
  /\ extractJournalName e = [].
Proof.
  refine (@defers_to_base acl (BaseMetadataExtractor genericPage) genericPage
            _).
  repeat constructor.
Defined.

(** X13. For every extractor, the authors of a page with [citation_author]
    tags are the values of these tags, in document order and joined with a
    comma and a space; a tag without a value is left out, and nothing else
    on the page nor the base class is consulted. *)
Theorem authors_from_citation_tags (p : publisher)
    (super : MetadataExtractor) (document : Document)
    (names : list jsstring) :
  Contents (querySelectorAll document (metaName "citation_author")) names ->
  names <> [] ->
  extractAuthors (createMetadataExtractor p super document)
  = join (str ", ") names.
Proof.
  intros Hc Hne. apply Contents_contents in Hc.
  destruct p; cbn [createMetadataExtractor]; extractors;
    unfold citationAuthors; rewrite Hc;
    destruct names; try congruence; reflexivity.
Qed.

Lemma authors_from_citation_tags_witness :
  extractAuthors
    (createMetadataExtractor springer (BaseMetadataExtractor authorsPage)
       authorsPage)
  = str "Ada Lovelace, Charles Babbage".
Proof.
  refine (@authors_from_citation_tags springer
            (BaseMetadataExtractor authorsPage) authorsPage
            [str "Ada Lovelace"; str "Charles Babbage"] _ _).
  - apply Contents_value; [reflexivity|discriminate|].
    apply Contents_skip; [right; reflexivity|].
    apply Contents_value; [reflexivity|discriminate|].
    apply Contents_nil.
  - discriminate.
Defined.

(** X14. In the Springer extractor, the [dc.creator] tags give the authors
    when no [citation_author] tag has a value, joined the same way. *)
Theorem springer_dc_creators (super : MetadataExtractor)
    (document : Document) (names : list jsstring) :
  Contents (querySelectorAll document (metaName "citation_author")) [] ->
  Contents (querySelectorAll document (metaName "dc.creator")) names ->
  names <> [] ->
  extractAuthors (Springer.SpringerMetadataExtractor super document)
  = join (str ", ") names.
Proof.
  intros Hc Hd Hne. apply Contents_contents in Hc, Hd.
  extractors. unfold citationAuthors. rewrite Hc, Hd.
  destruct names; [congruence|reflexivity].
Qed.

Lemma springer_dc_creators_witness :
  extractAuthors
    (Springer.SpringerMetadataExtractor (BaseMetadataExtractor creatorsPage)
       creatorsPage)
  = str "Luigi Menabrea, Ada Lovelace".
Proof.
  refine (@springer_dc_creators (BaseMetadataExtractor creatorsPage)
            creatorsPage [str "Luigi Menabrea"; str "Ada Lovelace"] _ _ _).
  - apply Contents_nil.
  - apply Contents_value; [reflexivity|discriminate|].
    apply Contents_value; [reflexivity|discriminate|].
    apply Contents_nil.
  - discriminate.
Defined.

Lemma trim_tidy (t : jsstring) : trim t <> [] -> tidy (trim t).
Proof.
  intros Hne. destruct (trim_TrimOf t) as (before & after & _ & _ & _ & H1 & H2).
  repeat split; assumption.
Qed.

Lemma trimStart_spaces (before s : jsstring) :
  Forall (fun c => space c = true) before ->
  trimStart (before ++ s) = trimStart s.
Proof.
  induction 1 as [|c before Hc _ IH]; simpl; [reflexivity|].
  rewrite Hc. exact IH.
Qed.

Lemma trimStart_clean (s : jsstring) : startsClean s -> trimStart s = s.
Proof. destruct s as [|c s]; simpl; [reflexivity|]. intros ->. reflexivity. Qed.

(** What [trim] returns is the one string that the piece holds between
    white space at its two ends. *)
Lemma TrimOf_unique (s t : jsstring) : TrimOf s t -> trim s = t.
Proof.
  intros (before & after & -> & Hb & Ha & Hstart & Hend).
  unfold trim. rewrite (@trimStart_spaces before (t ++ after) Hb).
  destruct t as [|c t].
  - cbn [app]. rewrite <- (app_nil_r after).
    rewrite (@trimStart_spaces after [] Ha). reflexivity.
  - rewrite (@trimStart_clean ((c :: t) ++ after) Hstart). unfold trimEnd.
    rewrite rev_app_distr.
    rewrite (@trimStart_spaces (rev after) (rev (c :: t)) (Forall_rev Ha)).
    rewrite (@trimStart_clean (rev (c :: t)) Hend). apply rev_involutive.
Qed.

Lemma blank_trim (text : jsstring) :
  Forall (fun c => space c = true) text -> trim text = [].
Proof.
  intros H. apply TrimOf_unique. exists text, []. repeat split; auto.
  simpl. symmetry. apply app_nil_r.
Qed.

Lemma Texts_texts (els : list Element) (ts : list jsstring) :
  Texts els ts -> texts els = ts.
Proof.
  unfold texts.
  induction 1 as [|el text t els ts Ht Htrim Hne _ IH|el els ts Hb _ IH];
    simpl.
  - reflexivity.
  - rewrite Ht, (@TrimOf_unique text t Htrim), IH.
    destruct t; [congruence|reflexivity].
  - unfold blank in Hb. destruct (textContent el) as [text|]; [|exact IH].
    rewrite (@blank_trim text Hb). exact IH.
Qed.

(** X15. In the NeurIPS, CVF and IEEE extractors, a page without a
    [citation_author] value and with author elements gets the texts of
    these elements, in document order, each without the white space at its
    ends and the blank ones left out, joined with a comma and a space; the
    base class is not consulted, so that author elements that are all blank
    give the empty string. *)
Theorem authors_from_elements (p : publisher) (selector : jsstring)
    (super : MetadataExtractor) (document : Document)
    (names : list jsstring) :
  authorSelector p = Some selector ->
  Contents (querySelectorAll document (metaName "citation_author")) [] ->
  querySelectorAll document selector <> [] ->
  Texts (querySelectorAll document selector) names ->
  extractAuthors (createMetadataExtractor p super document)
  = join (str ", ") names.
Proof.
  intros Hp Hc Hne Ht. apply Contents_contents in Hc.
  apply Texts_texts in Ht.
  destruct p; simpl in Hp; try discriminate; inversion Hp; subst selector;
    cbn [createMetadataExtractor]; extractors;
    unfold citationAuthors; rewrite Hc, Ht;
    match goal with
    | |- context [querySelectorAll document ?sel] =>
        destruct (querySelectorAll document sel)
    end; try congruence; reflexivity.
Qed.

Lemma authors_from_elements_witness :
  extractAuthors
    (createMetadataExtractor neurips (BaseMetadataExtractor markupPage)
       markupPage)
  = str "Ada Lovelace, Charles Babbage".
Proof.
  refine (@authors_from_elements neurips (str ".author a, .author span")
            (BaseMetadataExtractor markupPage) markupPage
            [str "Ada Lovelace"; str "Charles Babbage"] eq_refl _ _ _).
  - apply Contents_nil.
  - discriminate.
  - apply (@Texts_value _ (str "  Ada Lovelace ") (str "Ada Lovelace"));
      [reflexivity
      |exists (str "  "), (str " "); repeat split; repeat constructor
      |discriminate|].
    apply Texts_skip; [repeat constructor|].
    apply (@Texts_value _ (str "Charles Babbage") (str "Charles Babbage"));
      [reflexivity
      |exists [], []; repeat split; repeat constructor
      |discriminate|].
    apply Texts_nil.
Defined.

(** X16. In the NeurIPS, CVF and IEEE extractors, a page whose description
    tags have no value and that has the abstract element gets the text of
    this element without the white space at its ends: the empty string when
    the element has no text or a blank one, whatever the base class would
    answer. *)
Theorem description_from_abstract_element (p : publisher)
    (selector : jsstring) (super : MetadataExtractor) (document : Document)
    (el : Element) (others : list Element) :
  abstractSelector p = Some selector ->
  Forall (fun tag => getMetaContent document tag = []) (descriptionTags p) ->
  querySelectorAll document selector = el :: others ->
  (forall text t, textContent el = Some text -> TrimOf text t ->
     extractDescription (createMetadataExtractor p super document) = t)
  /\ (blank el ->
      extractDescription (createMetadataExtractor p super document) = []).
Proof.
  intros Hp Hl Hq.
  assert (extractDescription (createMetadataExtractor p super document)
          = textOf el) as ->.
  { destruct p; simpl in Hp; try discriminate; inversion Hp; subst selector;
      cbn [descriptionTags] in Hl; members Hl;
      cbn [createMetadataExtractor]; extractors;
      repeat match goal with
             | H : getMetaContent _ _ = [] |- _ => rewrite H; clear H
             end;
      unfold querySelector; rewrite Hq; reflexivity. }
  unfold textOf, blank. split.
  - intros text t -> Ht. apply TrimOf_unique. exact Ht.
  - destruct (textContent el); [apply blank_trim|reflexivity].
Qed.

Lemma description_from_abstract_element_witness :
  extractDescription
    (createMetadataExtractor neurips (BaseMetadataExtractor markupPage)
       markupPage)
  = str "Notes on the engine.".
Proof.
  refine (proj1 (@description_from_abstract_element neurips (str ".abstract")
                   (BaseMetadataExtractor markupPage) markupPage
                   (textElement "  Notes on the engine. ") [] eq_refl _ eq_refl)
            (str "  Notes on the engine. ") (str "Notes on the engine.")
            eq_refl _).
  - repeat constructor.
  - exists (str "  "), (str " "). repeat split; repeat constructor.
Defined.

Lemma keywords_value (document : Document) (value : jsstring) :
  carries document (metaName "citation_keywords") value
  \/ (getMetaContent document (metaName "citation_keywords") = []
      /\ carries document (metaName "keywords") value) ->
  keywordsOf document = value /\ value <> [].
Proof.
  unfold keywordsOf. intros [H|[H0 H]];
    pose proof (carries_nonempty H) as Hne;
    apply getMetaContent_carries in H; split; auto.
  - rewrite H. destruct value; [congruence|reflexivity].
  - rewrite H0, H. reflexivity.
Qed.

Lemma extractTags_keywords (p : publisher) (super : MetadataExtractor)
    (document : Document) (value : jsstring) :
  keywordsOf document = value -> value <> [] ->
  extractTags (createMetadataExtractor p super document)
  = splitKeywords value.
Proof.
  intros Hk Hne.
  destruct p; cbn [createMetadataExtractor]; extractors; rewrite Hk;
    destruct value; try congruence; reflexivity.
Qed.

Lemma splitKeywords_tidy (value : jsstring) :
  Forall (fun t => tidy t /\ Forall (fun c => keywordSeparator c = false) t)
    (splitKeywords value).
Proof.
  unfold splitKeywords.
  destruct (split_SplitOn keywordSeparator value) as (_ & _ & _ & Hp & _).
  induction Hp as [|piece pieces Hpiece _ IH]; simpl; [constructor|].
  destruct (trim piece) as [|c t] eqn:E; simpl; [exact IH|].
  constructor; [|exact IH]. rewrite <- E. split.
  - apply trim_tidy. congruence.
  - destruct (trim_TrimOf piece) as (before & after & Heq & _).
    rewrite Heq in Hpiece. apply Forall_app in Hpiece.
    destruct Hpiece as [_ Hpiece]. apply Forall_app in Hpiece.
    exact (proj1 Hpiece).
Qed.

(** X17. For every extractor, the tags read from a keywords value are
    tidy: none is empty, none begins or ends with white space, and none
    holds a comma or a semicolon. *)
Theorem tags_are_tidy (p : publisher) (super : MetadataExtractor)
    (document : Document) (value : jsstring) :
  carries document (metaName "citation_keywords") value
  \/ (getMetaContent document (metaName "citation_keywords") = []
      /\ carries document (metaName "keywords") value) ->
  Forall (fun t => tidy t /\ Forall (fun c => keywordSeparator c = false) t)
    (extractTags (createMetadataExtractor p super document)).
Proof.
  intros H. apply keywords_value in H. destruct H as [Hk Hne].
  rewrite (@extractTags_keywords p super document value Hk Hne).
  apply splitKeywords_tidy.
Qed.

Lemma tags_are_tidy_witness :
  Forall (fun t => tidy t /\ Forall (fun c => keywordSeparator c = false) t)
    (extractTags
       (createMetadataExtractor acm (BaseMetadataExtractor fullPage) fullPage)).
Proof.
  refine (@tags_are_tidy acm (BaseMetadataExtractor fullPage) fullPage
            (str " vision, learning ;; graphs ,") _).
  right. split; [reflexivity|].
  do 2 eexists. repeat split. discriminate.
Defined.

(** X18. In the IEEE extractor, a page whose keywords tags have no value
    and that has keyword elements gets as tags the texts of these elements,
    in document order, each without the white space at its ends and the
    blank ones left out; the base class is not consulted. *)
Theorem ieee_tags_from_elements (super : MetadataExtractor)
    (document : Document) (tags : list jsstring) :
  getMetaContent document (metaName "citation_keywords") = [] ->
  getMetaContent document (metaName "keywords") = [] ->
  querySelectorAll document (str ".keywords .keyword") <> [] ->
  Texts (querySelectorAll document (str ".keywords .keyword")) tags ->
  extractTags (IEEE.IEEEMetadataExtractor super document) = tags.
Proof.
  intros Hc Hk Hne Ht. apply Texts_texts in Ht.
  extractors. unfold keywordsOf. rewrite Hc, Hk, Ht.
  destruct (querySelectorAll document (str ".keywords .keyword"));
    [congruence|reflexivity].
Qed.

Lemma ieee_tags_from_elements_witness :
  extractTags
    (IEEE.IEEEMetadataExtractor (BaseMetadataExtractor markupPage) markupPage)
  = [str "engines"; str "notes"].
Proof.
  refine (@ieee_tags_from_elements (BaseMetadataExtractor markupPage)
            markupPage [str "engines"; str "notes"] eq_refl eq_refl _ _).
  - discriminate.
  - apply (@Texts_value _ (str " engines ") (str "engines"));
      [reflexivity
      |exists (str " "), (str " "); repeat split; repeat constructor
      |discriminate|].
    apply (@Texts_value _ (str "notes") (str "notes"));
      [reflexivity
      |exists [], []; repeat split; repeat constructor
      |discriminate|].
    apply Texts_nil.
Defined.

(** ** The registry, again *)

Lemma arrayFind_In (A : Type) (f : A -> bool) (l : list A) (x : A) :
  Registry.arrayFind f l = Some x -> In x l.
Proof.
  intros H. apply arrayFind_some in H.
  destruct H as (before & after & -> & _). apply in_or_app. right. left.
  reflexivity.
Qed.

(** X19. The match patterns of an integration found by id are all among
    the patterns [getAllContentScriptMatches] returns. *)
Theorem found_integration_matches
    (sourceIntegrations : list Registry.SourceIntegration)
    (id : jsstring) (integration : Registry.SourceIntegration) :
  Registry.getIntegrationById sourceIntegrations id = Some integration ->
  incl (Registry.contentScriptMatches integration)
    (Registry.getAllContentScriptMatches sourceIntegrations).
Proof.
  unfold Registry.getIntegrationById, Registry.getAllContentScriptMatches.
  intros H. apply arrayFind_In in H. rewrite flatMap_concat.
  intros pattern Hp. apply in_concat.
  exists (Registry.contentScriptMatches integration). split; [|exact Hp].
  apply in_map. exact H.
Qed.

Lemma found_integration_matches_witness :
  incl [str "*://dl.acm.org/*"; str "*://portal.acm.org/*"]
    (Registry.getAllContentScriptMatches sampleRegistry).
Proof.
  exact (@found_integration_matches sampleRegistry (str "acm")
           (Registry.integration acm
              [str "*://dl.acm.org/*"; str "*://portal.acm.org/*"])
           eq_refl).
Defined.

Lemma streq_false (a b : jsstring) : a <> b -> streq a b = false.
Proof.
  intros H. destruct (streq a b) eqn:E; [|reflexivity].
  apply streq_eq in E. contradiction.
Qed.

(** X20. In the registry as [registry.ts] lists it, looking up the id of
    one of the eight integrations at hand gives that integration back,
    provided none of the ten other integrations bears the same id: the
    eight ids are all different. *)
Theorem known_id_lookup (absent : AbsentIntegrations)
    (inherited : publisher -> list jsstring) (p : publisher) :
  Forall (fun i => Registry.id i <> idOf p) (absentIntegrations absent) ->
  Registry.getIntegrationById (sourceIntegrations absent inherited) (idOf p)
  = Some (Registry.integration p (inherited p)).
Proof.
  intros H. unfold absentIntegrations in H.
  repeat match type of H with
         | Forall _ (_ :: _) =>
             let H1 := fresh "Hid" in
             let H2 := fresh "Hrest" in
             inversion H as [|? ? H1 H2]; subst; clear H; rename H2 into H;
             apply streq_false in H1
         end.
  unfold Registry.getIntegrationById, sourceIntegrations.
  cbn [Registry.arrayFind Registry.id Registry.integration].
  repeat match goal with
         | E : streq ?a ?b = false |- context [streq ?a ?b] => rewrite E
         end.
  destruct p;
    repeat first
      [ match goal with
        | E : streq ?a ?b = false |- context [streq ?a ?b] => rewrite E
        end
      | match goal with
        | |- context [streq (idOf ?a) (idOf ?b)] =>
            let v := eval vm_compute in (streq (idOf a) (idOf b)) in
            change (streq (idOf a) (idOf b)) with v; cbv iota
        end ];
    reflexivity.
Qed.

Lemma known_id_lookup_witness :
  Registry.getIntegrationById
    (sourceIntegrations sampleAbsent (fun _ => [])) (str "medrxiv")
  = Some (Registry.integration medrxiv []).
Proof.
  refine (@known_id_lookup sampleAbsent (fun _ => []) medrxiv _).
  repeat (constructor; [discriminate|]). constructor.
Defined.
